(** * uFluidScope: the control core of [main.py]

    A shallow embedding of the slots of [MainWindow] (the 24-coil output
    bank, the routine workers and their dispatcher, the stage mover) and
    of the collaborators they drive, followed by the properties checked
    against it.

    Conventions.
    - A Python [str] is a [string]; its characters are 8-bit code points.
      Among those, [int()] accepts exactly the ten characters '0'..'9'.
    - A Python [float] is a binary64 number, [PrimFloat.float].
    - A slot is a computation [M X]: it threads the program state and ends
      either normally or with a raised exception; the state changes made
      before the exception stay, as in Python.
    - A dict iterated with [.items()] is an association list in insertion
      order. *)

From Stdlib Require Import ZArith Floats Ascii String List Lia Bool.
From stdpp Require Import base strings list.

Local Open Scope string_scope.
Local Open Scope list_scope.

(** ** Python values, exceptions *)

Inductive exn : Set :=
| ValueError
| IndexError
| TypeError
| AttributeError
| UnboundLocalError.

Inductive result (X : Type) : Type :=
| Ok (x : X)
| Raise (e : exn).

Arguments Ok {X} x.
Arguments Raise {X} e.

(** What a signal of type [pyqtSignal(object)] carries here: a label or
    the [None] a routine function returns. *)
Inductive pyobj : Set :=
| PyStr (s : string)
| PyNone.

(** The attribute [self.D] is bound twice in [__init__]: first to a preset
    string, later (by [_createDfield]) to the distance [QLineEdit]. *)
Inductive pyattr : Set :=
| PStr (s : string)
| PLineEdit (text : string).

(** [int(c)] for a one-character string [c]. *)
Definition py_int (c : ascii) : result Z :=
  let n := Z.of_nat (nat_of_ascii c) in
  if ((48 <=? n) && (n <=? 57))%Z then Ok (n - 48)%Z else Raise ValueError.

(** [bool(n)] for an int. *)
Definition py_bool (n : Z) : bool := negb (n =? 0)%Z.

(** [s[j]]. *)
Definition py_index (s : string) (j : nat) : result ascii :=
  match String.get j s with
  | Some c => Ok c
  | None => Raise IndexError
  end.

(** [''.join(cs)] for one-character pieces. *)
Definition py_join (cs : list ascii) : string := string_of_list_ascii cs.

(** [results == 'A'] *)
Definition py_eq_str (o : pyobj) (s : string) : bool :=
  match o with
  | PyStr t => String.eqb t s
  | PyNone => false
  end.

(** ** Program state *)

(** A line written by [print]. *)
Inductive line : Set :=
| Line_thread_complete
| Line_move (axis : Z) (velocity distance : float).

Record state : Set := mkState {
  self_A : string;
  self_B : string;
  self_C : string;
  self_D : pyattr;
  self_buttons : list (string * bool);     (* name, isChecked *)
  self_k : string;                         (* input field *)
  self_b4 : string;                        (* status field *)
  self_bc : string;                        (* command label *)
  self_displayBin : string;
  self_MCLbuttons : list (string * bool);
  self_MCL : string;
  self_V : string;
  client_coils : list (nat * bool);        (* client.write_coil calls *)
  stage_moves : list (Z * float * float);  (* stage.mcl_move calls *)
  stdout : list line
}.

Definition blank : state :=
  mkState "" "" "" (PStr "") [] "" "" "" "" [] "" "" [] [] [].

Definition with_A (x : string) (s : state) : state :=
  mkState x (self_B s) (self_C s) (self_D s) (self_buttons s) (self_k s)
    (self_b4 s) (self_bc s) (self_displayBin s) (self_MCLbuttons s)
    (self_MCL s) (self_V s) (client_coils s) (stage_moves s) (stdout s).

Definition with_B (x : string) (s : state) : state :=
  mkState (self_A s) x (self_C s) (self_D s) (self_buttons s) (self_k s)
    (self_b4 s) (self_bc s) (self_displayBin s) (self_MCLbuttons s)
    (self_MCL s) (self_V s) (client_coils s) (stage_moves s) (stdout s).

Definition with_C (x : string) (s : state) : state :=
  mkState (self_A s) (self_B s) x (self_D s) (self_buttons s) (self_k s)
    (self_b4 s) (self_bc s) (self_displayBin s) (self_MCLbuttons s)
    (self_MCL s) (self_V s) (client_coils s) (stage_moves s) (stdout s).

Definition with_D (x : pyattr) (s : state) : state :=
  mkState (self_A s) (self_B s) (self_C s) x (self_buttons s) (self_k s)
    (self_b4 s) (self_bc s) (self_displayBin s) (self_MCLbuttons s)
    (self_MCL s) (self_V s) (client_coils s) (stage_moves s) (stdout s).

Definition with_buttons (x : list (string * bool)) (s : state) : state :=
  mkState (self_A s) (self_B s) (self_C s) (self_D s) x (self_k s)
    (self_b4 s) (self_bc s) (self_displayBin s) (self_MCLbuttons s)
    (self_MCL s) (self_V s) (client_coils s) (stage_moves s) (stdout s).

Definition with_k (x : string) (s : state) : state :=
  mkState (self_A s) (self_B s) (self_C s) (self_D s) (self_buttons s) x
    (self_b4 s) (self_bc s) (self_displayBin s) (self_MCLbuttons s)
    (self_MCL s) (self_V s) (client_coils s) (stage_moves s) (stdout s).

Definition with_b4 (x : string) (s : state) : state :=
  mkState (self_A s) (self_B s) (self_C s) (self_D s) (self_buttons s)
    (self_k s) x (self_bc s) (self_displayBin s) (self_MCLbuttons s)
    (self_MCL s) (self_V s) (client_coils s) (stage_moves s) (stdout s).

Definition with_bc (x : string) (s : state) : state :=
  mkState (self_A s) (self_B s) (self_C s) (self_D s) (self_buttons s)
    (self_k s) (self_b4 s) x (self_displayBin s) (self_MCLbuttons s)
    (self_MCL s) (self_V s) (client_coils s) (stage_moves s) (stdout s).

Definition with_displayBin (x : string) (s : state) : state :=
  mkState (self_A s) (self_B s) (self_C s) (self_D s) (self_buttons s)
    (self_k s) (self_b4 s) (self_bc s) x (self_MCLbuttons s)
    (self_MCL s) (self_V s) (client_coils s) (stage_moves s) (stdout s).

Definition with_MCLbuttons (x : list (string * bool)) (s : state) : state :=
  mkState (self_A s) (self_B s) (self_C s) (self_D s) (self_buttons s)
    (self_k s) (self_b4 s) (self_bc s) (self_displayBin s) x
    (self_MCL s) (self_V s) (client_coils s) (stage_moves s) (stdout s).

Definition with_MCL (x : string) (s : state) : state :=
  mkState (self_A s) (self_B s) (self_C s) (self_D s) (self_buttons s)
    (self_k s) (self_b4 s) (self_bc s) (self_displayBin s)
    (self_MCLbuttons s) x (self_V s) (client_coils s) (stage_moves s)
    (stdout s).

Definition with_V (x : string) (s : state) : state :=
  mkState (self_A s) (self_B s) (self_C s) (self_D s) (self_buttons s)
    (self_k s) (self_b4 s) (self_bc s) (self_displayBin s)
    (self_MCLbuttons s) (self_MCL s) x (client_coils s) (stage_moves s)
    (stdout s).

Definition with_coils (x : list (nat * bool)) (s : state) : state :=
  mkState (self_A s) (self_B s) (self_C s) (self_D s) (self_buttons s)
    (self_k s) (self_b4 s) (self_bc s) (self_displayBin s)
    (self_MCLbuttons s) (self_MCL s) (self_V s) x (stage_moves s)
    (stdout s).

Definition with_moves (x : list (Z * float * float)) (s : state) : state :=
  mkState (self_A s) (self_B s) (self_C s) (self_D s) (self_buttons s)
    (self_k s) (self_b4 s) (self_bc s) (self_displayBin s)
    (self_MCLbuttons s) (self_MCL s) (self_V s) (client_coils s) x
    (stdout s).

Definition with_stdout (x : list line) (s : state) : state :=
  mkState (self_A s) (self_B s) (self_C s) (self_D s) (self_buttons s)
    (self_k s) (self_b4 s) (self_bc s) (self_displayBin s)
    (self_MCLbuttons s) (self_MCL s) (self_V s) (client_coils s)
    (stage_moves s) x.

(** ** The monad of slots: state, and exceptions that keep the state *)

Definition M (X : Type) : Type := state -> state * result X.

Definition ret {X} (x : X) : M X := fun s => (s, Ok x).

Definition raise {X} (e : exn) : M X := fun s => (s, Raise e).

Definition bind {X Y} (m : M X) (f : X -> M Y) : M Y :=
  fun s =>
    match m s with
    | (s', Ok x) => f x s'
    | (s', Raise e) => (s', Raise e)
    end.

Definition gets {X} (f : state -> X) : M X := fun s => (s, Ok (f s)).

Definition modify (f : state -> state) : M unit := fun s => (f s, Ok tt).

Definition lift {X} (r : result X) : M X := fun s => (s, r).

Notation "'let*' x ':=' c1 'in' c2" := (bind c1 (fun x => c2))
  (at level 10, x name, c1 at level 100, c2 at level 200).

Notation "c1 '>>>' c2" := (bind c1 (fun _ => c2))
  (at level 100, c2 at level 200, right associativity).

(** [for x in xs: body(x)] *)
Fixpoint for_each {X} (xs : list X) (body : X -> M unit) : M unit :=
  match xs with
  | [] => ret tt
  | x :: rest => body x >>> for_each rest body
  end.

(** [for j in range(n): body(j)] *)
Definition for_range (n : nat) (body : nat -> M unit) : M unit :=
  for_each (seq 0 n) body.

(** ** Widgets and collaborators *)

(** [self.buttons[btnText].setChecked(v)] on a dict of checkable buttons. *)
Definition setChecked (btnText : string) (v : bool)
    (btns : list (string * bool)) : list (string * bool) :=
  map (fun b => if String.eqb (fst b) btnText then (fst b, v) else b) btns.

(** [client.write_coil(j, status)] *)
Definition write_coil (j : nat) (status : bool) : M unit :=
  modify (fun s => with_coils (client_coils s ++ [(j, status)]) s).

(** [stage.mcl_move(axis, velocity, distance)]; the returned code is not
    looked at. *)
Definition mcl_move (axis : Z) (velocity distance : float) : M unit :=
  modify (fun s => with_moves (stage_moves s ++ [(axis, velocity, distance)]) s).

Definition print (l : line) : M unit :=
  modify (fun s => with_stdout (stdout s ++ [l]) s).

(** ** Wago slots *)

(** The string that [getButtonsState] builds from the buttons:
    [state] collects [int(isChecked())], [binstring] joins
    ['1' if x else '0']. *)
Definition binstring_of (btns : list (string * bool)) : string :=
  let state := map (fun b => Z.b2z (snd b)) btns in
  py_join (map (fun x => if py_bool x then "1"%char else "0"%char) state).

Definition getButtonsState : M unit :=
  let* binstring := gets (fun s => binstring_of (self_buttons s)) in
  modify (with_displayBin binstring) >>>
  modify (with_b4 "OK") >>>
  let INPUT := binstring in
  for_range (String.length INPUT) (fun j =>
    let* c := lift (py_index INPUT j) in
    let* n := lift (py_int c) in
    let status := py_bool n in
    write_coil j status).

(** The loop of [setButtonsState], with its counter [j]. *)
Fixpoint setButtonsState_loop (keys : list string) (inputs : string)
    (j : nat) : M unit :=
  match keys with
  | [] => ret tt
  | btnText :: rest =>
      let* c := lift (py_index inputs j) in
      let* n := lift (py_int c) in
      modify (fun s =>
        with_buttons (setChecked btnText (py_bool n) (self_buttons s)) s) >>>
      setButtonsState_loop rest inputs (j + 1)
  end.

Definition setButtonsState : M unit :=
  let* inputs := gets self_k in
  if negb (Nat.eqb (String.length inputs) 24) then
    modify (with_b4 "Error! Require 24-bit binary input") >>>
    let* a := gets self_A in
    modify (with_k a)
  else
    let* keys := gets (fun s => map fst (self_buttons s)) in
    setButtonsState_loop keys inputs 0 >>>
    getButtonsState >>>
    modify (with_b4 "OK").

(** [self.k.setText(inputs)]: a [QLineEdit] takes a [str] only. *)
Definition writeInputCommand (inputs : pyattr) : M unit :=
  match inputs with
  | PStr s => modify (with_k s)
  | PLineEdit _ => raise TypeError
  end.

Definition action (results : pyobj) : M unit :=
  if py_eq_str results "A" then
    modify (with_bc "A") >>>
    (let* a := gets self_A in writeInputCommand (PStr a)) >>>
    setButtonsState
  else if py_eq_str results "B" then
    modify (with_bc "B") >>>
    (let* b := gets self_B in writeInputCommand (PStr b)) >>>
    setButtonsState
  else if py_eq_str results "C" then
    modify (with_bc "C") >>>
    (let* c := gets self_C in writeInputCommand (PStr c)) >>>
    setButtonsState
  else if py_eq_str results "D" then
    modify (with_bc "D") >>>
    (let* d := gets self_D in writeInputCommand d) >>>
    setButtonsState
  else ret tt.

Definition thread_complete : M unit := print Line_thread_complete.

(** ** MCL widgets *)

Definition resetMCLButtonsState : M unit :=
  let* keys := gets (fun s => map fst (self_MCLbuttons s)) in
  for_each keys (fun btnText =>
    modify (fun s =>
      with_MCLbuttons (setChecked btnText false (self_MCLbuttons s)) s)).

(** What [self.<name>()] finds for the argument-free methods that
    [MainWindow] defines ahead of [getMCLButtonsState]; neither the class
    nor its Qt bases define any other name used that way. *)
Definition MainWindow_method (name : string) : option (M unit) :=
  if String.eqb name "thread_complete" then Some thread_complete
  else if String.eqb name "getButtonsState" then Some getButtonsState
  else if String.eqb name "setButtonsState" then Some setButtonsState
  else if String.eqb name "resetMCLButtonsState" then Some resetMCLButtonsState
  else None.

Definition call_self (name : string) : M unit :=
  match MainWindow_method name with
  | Some m => m
  | None => raise AttributeError
  end.

Section Stage.

(** [float(text)]: [None] stands for the [ValueError] of a text that is
    not a float literal. *)
Variable pyfloat : string -> option float.

(** [float(w.text())] for the object [w] an attribute holds. *)
Definition float_of_text (w : pyattr) : M float :=
  match w with
  | PLineEdit text =>
      match pyfloat text with
      | Some x => ret x
      | None => raise ValueError
      end
  | PStr _ => raise AttributeError
  end.

(** [move]: the locals [axis] and [distance] are bound by the branch
    taken, and stay unbound when none is. *)
Definition move (INPUT : string) : M unit :=
  let* bound :=
    if String.eqb INPUT "1000" then
      let* w := gets self_D in
      let* d := float_of_text w in
      ret (Some (1%Z, (d * (1 / 1000))%float))
    else if String.eqb INPUT "0001" then
      let* w := gets self_D in
      let* d := float_of_text w in
      ret (Some (1%Z, (- d * (1 / 1000))%float))
    else if String.eqb INPUT "0100" then
      let* w := gets self_D in
      let* d := float_of_text w in
      ret (Some (2%Z, (- d * (1 / 1000))%float))
    else if String.eqb INPUT "0010" then
      let* w := gets self_D in
      let* d := float_of_text w in
      ret (Some (2%Z, (d * (1 / 1000))%float))
    else ret None in
  let* v := gets self_V in
  let* velocity := float_of_text (PLineEdit v) in
  match bound with
  | Some (axis, distance) =>
      mcl_move axis velocity distance >>>
      print (Line_move axis velocity distance)
  | None => raise UnboundLocalError
  end.

Definition getMCLButtonsState : M unit :=
  let* binstring := gets (fun s => binstring_of (self_MCLbuttons s)) in
  modify (with_MCL binstring) >>>
  let INPUT := binstring in
  move INPUT >>>
  call_self "resetButtonsState".

(** A click on the checkable button [btnText]: Qt toggles it, then
    [clicked] runs the connected slot. *)
Definition click_MCL (btnText : string) : M unit :=
  modify (fun s =>
    with_MCLbuttons
      (map (fun b => if String.eqb (fst b) btnText
                     then (fst b, negb (snd b)) else b)
           (self_MCLbuttons s)) s) >>>
  getMCLButtonsState.

End Stage.

(** An instance of [float()] for the texts used in examples: it reads
    plain decimal digit strings, and agrees with Python on those of at
    most 15 digits, whose value is exact. *)
Fixpoint digits_value (cs : list ascii) (acc : float) : option float :=
  match cs with
  | [] => Some acc
  | c :: rest =>
      match py_int c with
      | Ok n => digits_value rest (acc * 10 + of_uint63 (Uint63.of_Z n))%float
      | Raise _ => None
      end
  end.

Definition float_of_digits (text : string) : option float :=
  match list_ascii_of_string text with
  | [] => None
  | cs => digits_value cs 0%float
  end.

(** ** [MainWindow.__init__] *)

Definition buttons : list (string * (nat * nat)) :=
  [("1", (0, 0)); ("2", (0, 1)); ("3", (0, 2)); ("4", (0, 3));
   ("5", (0, 4)); ("6", (0, 5)); ("7", (0, 6)); ("8", (0, 7));
   ("9", (1, 0)); ("10", (1, 1)); ("11", (1, 2)); ("12", (1, 3));
   ("13", (1, 4)); ("14", (1, 5)); ("15", (1, 6)); ("16", (1, 7));
   ("17", (2, 0)); ("18", (2, 1)); ("19", (2, 2)); ("20", (2, 3));
   ("21", (2, 4)); ("22", (2, 5)); ("23", (2, 6)); ("24", (2, 7))].

Definition MCLbuttons : list (string * (nat * nat)) :=
  [("-X", (1, 0)); ("+Y", (0, 1)); ("-Y", (2, 1)); ("+X", (1, 2))].

(** [d[key] = QPushButton(key)], the new button unchecked. *)
Definition dict_set (key : string) (v : bool) (d : list (string * bool))
    : list (string * bool) :=
  if existsb (fun b => String.eqb (fst b) key) d
  then setChecked key v d
  else d ++ [(key, v)].

Definition _createButtons (layout : list (string * (nat * nat))) : M unit :=
  modify (with_buttons []) >>>
  for_each layout (fun item =>
    modify (fun s => with_buttons (dict_set (fst item) false (self_buttons s)) s)).

Definition _createMCLButtons (layout : list (string * (nat * nat))) : M unit :=
  modify (with_MCLbuttons []) >>>
  for_each layout (fun item =>
    modify (fun s =>
      with_MCLbuttons (dict_set (fst item) false (self_MCLbuttons s)) s)).

Definition MainWindow_init : M unit :=
  modify (with_A ("0000" +:+ "0000" +:+ "0000" +:+ "0000" +:+ "0000" +:+ "0000")) >>>
  modify (with_B ("1111" +:+ "1111" +:+ "1111" +:+ "1111" +:+ "1111" +:+ "1111")) >>>
  modify (with_C ("1010" +:+ "1010" +:+ "1010" +:+ "1010" +:+ "1010" +:+ "1010")) >>>
  modify (with_D
    (PStr ("0101" +:+ "0101" +:+ "0101" +:+ "0101" +:+ "0101" +:+ "0101"))) >>>
  modify (with_displayBin "") >>>                       (* _createDisplayBin *)
  _createButtons buttons >>>
  (let* a := gets self_A in modify (with_k a)) >>>      (* _createInputField *)
  modify (with_bc "Command") >>>                        (* _createStartButton *)
  modify (with_b4 "OK") >>>                             (* _createStatusField *)
  getButtonsState >>>
  _createMCLButtons MCLbuttons >>>
  modify (with_MCL "") >>>                              (* _createMCLInput *)
  modify (with_V "1") >>>                               (* _createVfield *)
  modify (with_D (PLineEdit "50")) >>>                  (* _createDfield *)
  resetMCLButtonsState.

(** The window once constructed. *)
Definition window0 : state := fst (MainWindow_init blank).

(** ** Routines, workers and the thread pool *)

(** A routine function is straight-line: it emits on [results] and sleeps. *)
Inductive instr : Set :=
| Emit (label : string)
| Sleep (ms : nat).

(** [for i in range(n): body] *)
Fixpoint repeat_body (n : nat) (body : list instr) : list instr :=
  match n with
  | O => []
  | S n' => body ++ repeat_body n' body
  end.

Definition executefn1 : list instr :=
  repeat_body 10 [Emit "A"; Sleep 1000; Emit "B"; Sleep 2000].

Definition executefn2 : list instr :=
  repeat_body 10 [Emit "C"; Sleep 1000; Emit "D"; Sleep 1000].

Definition executefn3 : list instr :=
  repeat_body 10
    [Emit "A"; Sleep 1000; Emit "B"; Sleep 1000; Emit "C"; Sleep 2000].

Definition executefn4 : list instr :=
  repeat_body 10
    [Emit "A"; Sleep 500; Emit "B"; Sleep 500; Emit "C"; Sleep 500;
     Emit "D"; Sleep 1000].

(** What a worker thread does, one operation at a time. *)
Inductive wop : Set :=
| Op_result (o : pyobj)      (* signals.result.emit(o) *)
| Op_sleep (ms : nat)
| Op_finished.               (* signals.finished.emit() *)

(** [Worker.run]: the function, then [result.emit] of its return value
    ([None] for every routine) and, finally, [finished.emit]. *)
Definition Worker_run (fn : list instr) : list wop :=
  map (fun i => match i with
                | Emit label => Op_result (PyStr label)
                | Sleep ms => Op_sleep ms
                end) fn
  ++ [Op_result PyNone; Op_finished].

Inductive wstatus : Set := Queued | Running | Finished.

(** A [Worker] handed to the pool: where it stands and what is left of
    its [run]. It has no other field. *)
Record worker : Set := mkWorker {
  w_status : wstatus;
  w_ops : list wop
}.

(** A slot invocation queued for the GUI thread. *)
Inductive slot_call : Set :=
| Call_action (o : pyobj)
| Call_thread_complete.

Record system : Set := mkSystem {
  win : state;
  maxThreadCount : nat;
  workers : list worker;          (* in start order; the index names the run *)
  gui_queue : list slot_call;
  unhandled : list exn            (* exceptions that left a slot *)
}.

Definition is_running (w : worker) : bool :=
  match w_status w with Running => true | _ => false end.

Definition activeThreadCount (ws : list worker) : nat :=
  length (filter (fun w => is_running w = true) ws).

(** [self.threadpool.start(worker)] *)
Definition threadpool_start (ops : list wop) (sys : system) : system :=
  let st := if Nat.ltb (activeThreadCount (workers sys)) (maxThreadCount sys)
            then Running else Queued in
  mkSystem (win sys) (maxThreadCount sys)
    (workers sys ++ [mkWorker st ops]) (gui_queue sys) (unhandled sys).

Inductive routine : Set := R1 | R2 | R3 | R4.

Definition executefn (r : routine) : list instr :=
  match r with
  | R1 => executefn1
  | R2 => executefn2
  | R3 => executefn3
  | R4 => executefn4
  end.

(** [runfunction1] .. [runfunction4] *)
Definition runfunction (r : routine) (sys : system) : system :=
  threadpool_start (Worker_run (executefn r)) sys.

(** A thread freed by a finished run takes the first queued worker. *)
Fixpoint start_queued (ws : list worker) : list worker :=
  match ws with
  | [] => []
  | w :: rest =>
      match w_status w with
      | Queued => mkWorker Running (w_ops w) :: rest
      | _ => w :: start_queued rest
      end
  end.

Definition post (c : slot_call) (sys : system) : system :=
  mkSystem (win sys) (maxThreadCount sys) (workers sys)
    (gui_queue sys ++ [c]) (unhandled sys).

Definition set_workers (ws : list worker) (sys : system) : system :=
  mkSystem (win sys) (maxThreadCount sys) ws (gui_queue sys) (unhandled sys).

(** What one step of the system does. *)
Inductive event : Set :=
| Ev_started (r : routine)
| Ev_emit (i : nat) (o : pyobj)
| Ev_sleep (i : nat) (ms : nat)
| Ev_finished (i : nat)
| Ev_handled (c : slot_call) (after : state).

(** The running worker [i] performs its next operation. *)
Definition worker_step (i : nat) (sys : system) : option (system * event) :=
  match workers sys !! i with
  | Some (mkWorker Running (op :: rest)) =>
      match op with
      | Op_result o =>
          Some (post (Call_action o)
                  (set_workers (<[i := mkWorker Running rest]> (workers sys)) sys),
                Ev_emit i o)
      | Op_sleep ms =>
          Some (set_workers (<[i := mkWorker Running rest]> (workers sys)) sys,
                Ev_sleep i ms)
      | Op_finished =>
          Some (post Call_thread_complete
                  (set_workers
                     (start_queued (<[i := mkWorker Finished rest]> (workers sys)))
                     sys),
                Ev_finished i)
      end
  | _ => None
  end.

(** The connections made in [runfunctionN]. *)
Definition slot (c : slot_call) : M unit :=
  match c with
  | Call_action o => action o
  | Call_thread_complete => thread_complete
  end.

(** The GUI thread takes the oldest queued invocation and runs it. *)
Definition gui_step (sys : system) : option (system * event) :=
  match gui_queue sys with
  | [] => None
  | c :: rest =>
      let (s', r) := slot c (win sys) in
      Some (mkSystem s' (maxThreadCount sys) (workers sys) rest
              (match r with
               | Ok _ => unhandled sys
               | Raise e => unhandled sys ++ [e]
               end),
            Ev_handled c s')
  end.

Inductive label : Set :=
| User_start (r : routine)     (* a press on "Start routine r" *)
| Worker_step (i : nat)
| Gui_step.

Definition step (l : label) (sys : system) : option (system * event) :=
  match l with
  | User_start r => Some (runfunction r sys, Ev_started r)
  | Worker_step i => worker_step i sys
  | Gui_step => gui_step sys
  end.

(** A schedule is run from left to right; it stops at a label that is
    not enabled. *)
Fixpoint run (sched : list label) (sys : system)
    : option (system * list event) :=
  match sched with
  | [] => Some (sys, [])
  | l :: rest =>
      match step l sys with
      | Some (sys', ev) =>
          match run rest sys' with
          | Some (sys'', evs) => Some (sys'', ev :: evs)
          | None => None
          end
      | None => None
      end
  end.

(** The application as the event loop finds it. *)
Definition system0 (threads : nat) : system :=
  mkSystem window0 threads [] [] [].

(** *** Reading a trace *)

Definition emitted_by (i : nat) (tr : list event) : list pyobj :=
  omap (fun ev => match ev with
                  | Ev_emit j o => if Nat.eqb i j then Some o else None
                  | _ => None
                  end) tr.

Definition posted (tr : list event) : list slot_call :=
  omap (fun ev => match ev with
                  | Ev_emit _ o => Some (Call_action o)
                  | Ev_finished _ => Some Call_thread_complete
                  | _ => None
                  end) tr.

Definition handled (tr : list event) : list (slot_call * state) :=
  omap (fun ev => match ev with
                  | Ev_handled c s => Some (c, s)
                  | _ => None
                  end) tr.

(** What is left to emit on [result]. *)
Definition emits_of (ops : list wop) : list pyobj :=
  omap (fun op => match op with Op_result o => Some o | _ => None end) ops.

(** What is left to post to the GUI thread. *)
Definition calls_of (ops : list wop) : list slot_call :=
  omap (fun op => match op with
                  | Op_result o => Some (Call_action o)
                  | Op_sleep _ => None
                  | Op_finished => Some Call_thread_complete
                  end) ops.

(** The slots run one after the other, with the state each leaves. *)
Fixpoint dispatch (cs : list slot_call) (s : state)
    : list (slot_call * state) :=
  match cs with
  | [] => []
  | c :: rest => let s' := fst (slot c s) in (c, s') :: dispatch rest s'
  end.

(** ** Names for what the statements talk about *)

(** Typing [bits] into the input field and pressing "Set state"; also what
    "All on", "All off" and [action] do with a preset. *)
Definition setAll (bits : string) : M unit :=
  writeInputCommand (PStr bits) >>> setButtonsState.

(** The 24-character string of the buttons' current state. *)
Definition currentBinaryString (s : state) : string :=
  binstring_of (self_buttons s).

(** The button dict has the keys [__init__] gave it. *)
Definition wf_buttons (s : state) : Prop :=
  map fst (self_buttons s) = map fst buttons.

Definition is_digit (c : ascii) : bool :=
  match py_int c with Ok _ => true | Raise _ => false end.

Definition is_bit (c : ascii) : bool :=
  Ascii.eqb c "0" || Ascii.eqb c "1".

(** [bool(int(c))] for a digit [c]. *)
Definition truthy (c : ascii) : bool := negb (Ascii.eqb c "0").

Definition bit_char (b : bool) : ascii := if b then "1"%char else "0"%char.

(** The coil writes of one pass over the 24 buttons. *)
Definition coil_writes (bs : list bool) : list (nat * bool) :=
  zip (seq 0 (length bs)) bs.

(** The loop of [setButtonsState] as a function of the buttons still to
    visit and the characters still to read. *)
Fixpoint loop_spec (todo : list (string * bool)) (cs : list ascii)
    : list (string * bool) * result unit :=
  match todo with
  | [] => ([], Ok tt)
  | b :: todo' =>
      match cs with
      | [] => (todo, Raise IndexError)
      | c :: cs' =>
          match py_int c with
          | Ok n =>
              let (l, r) := loop_spec todo' cs' in
              ((fst b, py_bool n) :: l, r)
          | Raise e => (todo, Raise e)
          end
      end
  end.

(** What a dispatched move leaves: one call on the stage, one line. *)
Definition dispatched (axis : Z) (velocity distance : float) (s : state)
    : state :=
  with_stdout (stdout s ++ [Line_move axis velocity distance])
    (with_moves (stage_moves s ++ [(axis, velocity, distance)]) s).

(** A step of the program itself, as opposed to a press by the user. *)
Definition internal (l : label) : bool :=
  match l with User_start _ => false | _ => true end.

(** The state the slots leave when run one after the other. *)
Definition dispatch_final (cs : list slot_call) (s : state) : state :=
  fold_left (fun s c => fst (slot c s)) cs s.

(** The labels of routine 1 in authoring order. *)
Definition routine1_labels : list string :=
  ["A"; "B"; "A"; "B"; "A"; "B"; "A"; "B"; "A"; "B";
   "A"; "B"; "A"; "B"; "A"; "B"; "A"; "B"; "A"; "B"].

(** What a run of routine 1 posts to the GUI thread: the labels, the
    return value of the routine function, the completion. *)
Definition routine1_calls : list slot_call :=
  map (fun l => Call_action (PyStr l)) routine1_labels
  ++ [Call_action PyNone; Call_thread_complete].

(** The state a handled label leaves: its preset on the buttons and in the
    display, status [OK], the label shown, and the preset's 24 bits as the
    last coil writes, in index order. *)
Definition reflects (p : slot_call * state) : Prop :=
  match fst p with
  | Call_action (PyStr l) =>
      let preset :=
        if String.eqb l "A" then "000000000000000000000000"
        else "111111111111111111111111" in
      currentBinaryString (snd p) = preset /\
      self_displayBin (snd p) = preset /\
      self_b4 (snd p) = "OK" /\
      self_bc (snd p) = l /\
      drop (length (client_coils (snd p)) - 24) (client_coils (snd p))
        = coil_writes (map truthy (list_ascii_of_string preset))
  | _ => True
  end.

(** Nothing is left to do: no queued slot, no worker with operations. *)
Definition quiescent (sys : system) : Prop :=
  gui_queue sys = [] /\ Forall (fun w => w_ops w = []) (workers sys).

(** The schedule in which the GUI thread handles each emission during the
    sleep that follows it. *)
Definition lockstep1 : list label :=
  concat (replicate 10
    [Worker_step 0; Gui_step; Worker_step 0;
     Worker_step 0; Gui_step; Worker_step 0])
  ++ [Worker_step 0; Gui_step; Worker_step 0; Gui_step].

(** Supersession as the specification words it: once a routine is started,
    a run that was active stops at its next step boundary, so that it
    emits at most the one event it may have been about to emit. *)
Definition start_supersedes : Prop :=
  forall (sys : system) (i : nat) (w : worker) (r : routine)
         (sched : list label) (sys' : system) (tr : list event),
    workers sys !! i = Some w ->
    w_status w = Running ->
    run (User_start r :: sched) sys = Some (sys', tr) ->
    length (emitted_by i tr) <= 1.

(** Routine 1 is started, then routine 3 half a second later, while
    the first run sleeps; the schedule follows the two runs for the next
    two seconds. *)
Definition two_runs : list label :=
  [User_start R1; Worker_step 0; Gui_step;      (* run 0 emits A *)
   User_start R3; Worker_step 1; Gui_step;      (* run 1 emits A *)
   Worker_step 0; Worker_step 0; Gui_step;      (* run 0 wakes, emits B *)
   Worker_step 1; Worker_step 1; Gui_step;      (* run 1 wakes, emits B *)
   Worker_step 1; Worker_step 1; Gui_step].     (* run 1 wakes, emits C *)

(** [quiescent], as a test. *)
Definition quiescentb (sys : system) : bool :=
  match gui_queue sys with
  | [] => forallb (fun w => match w_ops w with [] => true | _ => false end)
            (workers sys)
  | _ :: _ => false
  end.

(** A trace in which each emission is handled before anything else
    happens: the GUI thread keeps pace with the worker. *)
Fixpoint paced (tr : list event) : bool :=
  match tr with
  | [] => true
  | Ev_emit _ o :: rest =>
      match rest with
      | Ev_handled (Call_action o') _ :: _ =>
          match o, o' with
          | PyStr l, PyStr l' => String.eqb l l' && paced rest
          | PyNone, PyNone => paced rest
          | _, _ => false
          end
      | _ => false
      end
  | _ :: rest => paced rest
  end.

(** ** The rest of the window: clicks, the LED, what a user can do *)

(** What Qt does to a checkable button that is clicked. *)
Definition toggle (btnText : string) (btns : list (string * bool))
    : list (string * bool) :=
  map (fun b => if String.eqb (fst b) btnText
                then (fst b, negb (snd b)) else b) btns.

(** A click on the button [btnText] of the Wago grid: Qt toggles it, then
    [clicked] runs [getButtonsState]. *)
Definition click_button (btnText : string) : M unit :=
  modify (fun s => with_buttons (toggle btnText (self_buttons s)) s) >>>
  getButtonsState.

(** A string of 24 characters '0'/'1'. *)
Definition is_bits24 (bits : string) : bool :=
  Nat.eqb (String.length bits) 24
  && forallb is_bit (list_ascii_of_string bits).

(** The attribute that [action] writes for a label, for the three labels
    whose attribute is a string. *)
Definition preset_of (l : string) (s : state) : option string :=
  if String.eqb l "A" then Some (self_A s)
  else if String.eqb l "B" then Some (self_B s)
  else if String.eqb l "C" then Some (self_C s)
  else None.

(** The four patterns [move] has a branch for. *)
Definition is_direction (INPUT : string) : bool :=
  String.eqb INPUT "1000" || String.eqb INPUT "0001"
  || String.eqb INPUT "0100" || String.eqb INPUT "0010".

(** What the operator can do to the window, and what reaches it from a
    routine. *)
Inductive user_op : Set :=
| Type_input (text : string)       (* edit the input field *)
| Press_set_state                  (* "Set state" *)
| Press_all_on                     (* "All on" *)
| Press_all_off                    (* "All off" *)
| Click (btnText : string)         (* a button of the Wago grid *)
| Click_MCL (btnText : string)     (* a direction button *)
| Type_distance (text : string)    (* edit the distance field *)
| Type_velocity (text : string)    (* edit the velocity field *)
| Deliver (o : pyobj).             (* an emitted event reaches [action] *)

Section UserOps.

Variable pyfloat : string -> option float.

Definition run_op (op : user_op) : M unit :=
  match op with
  | Type_input text => modify (with_k text)
  | Press_set_state => setButtonsState
  | Press_all_on =>
      (let* b := gets self_B in writeInputCommand (PStr b)) >>>
      setButtonsState
  | Press_all_off =>
      (let* a := gets self_A in writeInputCommand (PStr a)) >>>
      setButtonsState
  | Click btnText => click_button btnText
  | Click_MCL btnText => click_MCL pyfloat btnText
  | Type_distance text =>
      modify (fun s => match self_D s with
                       | PLineEdit _ => with_D (PLineEdit text) s
                       | PStr _ => s
                       end)
  | Type_velocity text => modify (with_V text)
  | Deliver o => action o
  end.

(** The window after a sequence of operations, each one run to its end or
    to its exception. *)
Definition after (ops : list user_op) (s : state) : state :=
  fold_left (fun s op => fst (run_op op s)) ops s.

End UserOps.

(** What no slot assigns: the presets, the object held by [self.D], the
    keys of the two button dicts. *)
Definition config_kept (s s' : state) : Prop :=
  self_A s' = self_A s /\
  self_B s' = self_B s /\
  self_C s' = self_C s /\
  self_D s' = self_D s /\
  map fst (self_buttons s') = map fst (self_buttons s) /\
  map fst (self_MCLbuttons s') = map fst (self_MCLbuttons s).

Definition keeps {X} (m : M X) : Prop :=
  forall s : state, config_kept s (fst (m s)).

(** The configuration [__init__] leaves. *)
Definition configured (s : state) : Prop :=
  wf_buttons s /\
  self_A s = "000000000000000000000000" /\
  self_B s = "111111111111111111111111" /\
  self_C s = "101010101010101010101010" /\
  (exists text : string, self_D s = PLineEdit text) /\
  map fst (self_MCLbuttons s) = ["-X"; "+Y"; "-Y"; "+X"].

(** *** The LED *)

(** The LED slots touch the LED buttons, the serial port and the console
    only; they are modelled on those. *)
Record led : Set := mkLed {
  self_LEDbuttons : list (string * bool);
  ser_written : list string;           (* ser.write calls *)
  led_printed : list string
}.

Definition newline : string := String "010"%char EmptyString.

(** [int(s)] for a [str] made of decimal digits, which is what a joined
    list of '0' and '1' is; the empty [str] raises [ValueError]. *)
Fixpoint digits_Z (cs : list ascii) (acc : Z) : result Z :=
  match cs with
  | [] => Ok acc
  | c :: rest =>
      match py_int c with
      | Ok n => digits_Z rest (10 * acc + n)%Z
      | Raise e => Raise e
      end
  end.

Definition py_int_str (s : string) : result Z :=
  match list_ascii_of_string s with
  | [] => Raise ValueError
  | cs => digits_Z cs 0%Z
  end.

Definition getLEDButtonsState (d : led) : led * result unit :=
  let binstring := binstring_of (self_LEDbuttons d) in
  let INPUT := binstring in
  match py_int_str INPUT with
  | Raise e => (d, Raise e)
  | Ok n =>
      if py_bool n then
        (mkLed (self_LEDbuttons d) (ser_written d ++ ["CSN" +:+ newline])
           (led_printed d ++ ["LED on"]), Ok tt)
      else
        (mkLed (self_LEDbuttons d) (ser_written d ++ ["CSF" +:+ newline])
           (led_printed d ++ ["LED off"]), Ok tt)
  end.

Definition resetLEDButtonsState (d : led) : led :=
  mkLed
    (fold_left (fun btns btnText => setChecked btnText false btns)
       (map fst (self_LEDbuttons d)) (self_LEDbuttons d))
    (ser_written d) (led_printed d).

(** A click on an LED button. *)
Definition click_LED (btnText : string) (d : led) : led * result unit :=
  getLEDButtonsState
    (mkLed (toggle btnText (self_LEDbuttons d)) (ser_written d)
       (led_printed d)).

(** *** Every routine *)

(** The labels of one round of a routine, and of its ten rounds. *)
Definition round_labels (r : routine) : list string :=
  match r with
  | R1 => ["A"; "B"]
  | R2 => ["C"; "D"]
  | R3 => ["A"; "B"; "C"]
  | R4 => ["A"; "B"; "C"; "D"]
  end.

Definition routine_labels (r : routine) : list string :=
  concat (replicate 10 (round_labels r)).


(** What is left of a [Worker.run] has [finished.emit()] in last place
    only. *)
Fixpoint well_ended (ops : list wop) : bool :=
  match ops with
  | [] => true
  | Op_finished :: rest => match rest with [] => true | _ :: _ => false end
  | _ :: rest => well_ended rest
  end.

(** A run that the pool has started and that is well ended. *)
Definition under_way (w : worker) : Prop :=
  well_ended (w_ops w) = true /\
  w_status w <> Queued /\
  (w_ops w <> [] -> w_status w = Running).

(** * Properties *)

(** ** Strings and buttons *)

Lemma with_buttons_self s : with_buttons (self_buttons s) s = s.
Proof. destruct s; reflexivity. Qed.

Lemma get_lookup s j : String.get j s = list_ascii_of_string s !! j.
Proof. revert j; induction s as [|c s IH]; intros [|j]; simpl; auto. Qed.

Lemma length_chars s : length (list_ascii_of_string s) = String.length s.
Proof. induction s; simpl; auto. Qed.

Lemma py_index_chars inputs pre post :
  list_ascii_of_string inputs = pre ++ post ->
  py_index inputs (length pre) =
  match post with c :: _ => Ok c | [] => Raise IndexError end.
Proof.
  intros H. unfold py_index. rewrite get_lookup, H.
  destruct post as [|c post].
  - rewrite lookup_ge_None_2; [reflexivity|]. rewrite app_nil_r. lia.
  - rewrite list_lookup_middle; auto.
Qed.

Lemma setChecked_notin k v l :
  k ∉ map fst l -> setChecked k v l = l.
Proof.
  induction l as [|[k' c] l IH]; simpl; intros Hk; [reflexivity|].
  rewrite not_elem_of_cons in Hk. destruct Hk as [Hne Hk].
  destruct (String.eqb_spec k' k); [congruence|]. f_equal; auto.
Qed.

Lemma setChecked_middle k c v done todo :
  NoDup (map fst (done ++ (k, c) :: todo)) ->
  setChecked k v (done ++ (k, c) :: todo) = done ++ (k, v) :: todo.
Proof.
  intros Hnd. rewrite map_app in Hnd. simpl in Hnd.
  apply NoDup_app in Hnd. destruct Hnd as (_ & Hdis & Hnd).
  apply NoDup_cons in Hnd. destruct Hnd as [Hk _].
  unfold setChecked. rewrite map_app. simpl. rewrite String.eqb_refl.
  fold (setChecked k v done). fold (setChecked k v todo).
  rewrite !setChecked_notin; auto.
  intros Hin. apply (Hdis k Hin). left.
Qed.

Lemma with_buttons_twice x y s :
  with_buttons x (with_buttons y s) = with_buttons x s.
Proof. reflexivity. Qed.

Lemma setButtonsState_loop_spec todo : forall done pre post inputs s,
  NoDup (map fst (done ++ todo)) ->
  self_buttons s = done ++ todo ->
  list_ascii_of_string inputs = pre ++ post ->
  length pre = length done ->
  setButtonsState_loop (map fst todo) inputs (length done) s
  = (with_buttons (done ++ fst (loop_spec todo post)) s,
     snd (loop_spec todo post)).
Proof.
  induction todo as [|[k c] todo IH]; intros done pre post inputs s Hnd Hb Hin Hlen.
  - simpl. unfold ret. rewrite <- Hb, with_buttons_self. reflexivity.
  - cbn [map fst setButtonsState_loop loop_spec].
    unfold bind at 1, lift at 1. rewrite <- Hlen, (py_index_chars _ _ _ Hin).
    destruct post as [|ch post].
    { cbn [fst snd]. rewrite <- Hb, with_buttons_self. reflexivity. }
    unfold bind at 1, lift at 1.
    destruct (py_int ch) as [n|e] eqn:Hch.
    2:{ cbn [fst snd]. rewrite <- Hb, with_buttons_self. reflexivity. }
    unfold bind at 1, modify at 1. rewrite Hb, setChecked_middle by exact Hnd.
    specialize (IH (done ++ [(k, py_bool n)]) (pre ++ [ch]) post inputs
                  (with_buttons (done ++ (k, py_bool n) :: todo) s)).
    rewrite Hlen.
    replace (length done + 1) with (length (done ++ [(k, py_bool n)]))
      by (rewrite length_app; reflexivity).
    rewrite IH.
    + destruct (loop_spec todo post) as [l r]. cbn [fst snd].
      rewrite with_buttons_twice, <- app_assoc. reflexivity.
    + rewrite <- app_assoc. simpl.
      rewrite map_app in *. simpl in *. exact Hnd.
    + simpl. rewrite <- app_assoc. reflexivity.
    + rewrite <- app_assoc. exact Hin.
    + rewrite !length_app. simpl. lia.
Qed.

Lemma py_bool_b2z b : py_bool (Z.b2z b) = b.
Proof. destruct b; reflexivity. Qed.

Lemma binstring_of_bits btns :
  binstring_of btns = string_of_list_ascii (map (fun b => bit_char (snd b)) btns).
Proof.
  unfold binstring_of, py_join. rewrite map_map. f_equal.
  apply map_ext. intros [k b]. simpl. rewrite py_bool_b2z. reflexivity.
Qed.

Lemma py_int_bit_char b : py_int (bit_char b) = Ok (Z.b2z b).
Proof. destruct b; reflexivity. Qed.

(** The coil loop of [getButtonsState] over a string of bit characters. *)
Lemma coil_loop bs : forall pre s,
  for_each (seq (length pre) (length bs)) (fun j =>
    let* c := lift (py_index (string_of_list_ascii (map bit_char (pre ++ bs))) j) in
    let* n := lift (py_int c) in
    write_coil j (py_bool n)) s
  = (with_coils (client_coils s ++ zip (seq (length pre) (length bs)) bs) s, Ok tt).
Proof.
  induction bs as [|b bs IH]; intros pre s.
  - simpl. unfold ret. rewrite app_nil_r. destruct s; reflexivity.
  - cbn [length seq for_each].
    unfold bind at 1. unfold bind at 1, lift at 1.
    pose proof (py_index_chars
      (string_of_list_ascii (map bit_char (pre ++ b :: bs)))
      (map bit_char pre) (map bit_char (b :: bs))) as Hix.
    rewrite length_map in Hix. rewrite Hix
      by (rewrite list_ascii_of_string_of_list_ascii, map_app; reflexivity).
    cbn [map]. unfold bind at 1, lift at 1. rewrite py_int_bit_char.
    unfold write_coil at 1, modify at 1. rewrite py_bool_b2z.
    specialize (IH (pre ++ [b])). rewrite length_app in IH. simpl in IH.
    replace (S (length pre)) with (length pre + 1) by lia.
    rewrite <- app_assoc in IH. simpl in IH. rewrite IH.
    simpl. rewrite <- app_assoc. simpl.
    replace (length pre + 1) with (S (length pre)) by lia. reflexivity.
Qed.

Lemma length_of_chars cs : String.length (string_of_list_ascii cs) = length cs.
Proof. induction cs; simpl; auto. Qed.

Lemma getButtonsState_spec s :
  getButtonsState s =
  (with_coils (client_coils s ++ coil_writes (map snd (self_buttons s)))
     (with_b4 "OK" (with_displayBin (currentBinaryString s) s)), Ok tt).
Proof.
  unfold getButtonsState, currentBinaryString.
  unfold bind at 1, gets at 1. unfold bind at 1, modify at 1.
  unfold bind at 1, modify at 1. unfold for_range.
  rewrite binstring_of_bits, <- (map_map snd bit_char).
  rewrite length_of_chars, length_map.
  pose proof (coil_loop (map snd (self_buttons s)) []) as H.
  simpl in H. rewrite H. reflexivity.
Qed.


Lemma setButtonsState_spec s :
  NoDup (map fst (self_buttons s)) ->
  String.length (self_k s) = 24 ->
  setButtonsState s =
  match loop_spec (self_buttons s) (list_ascii_of_string (self_k s)) with
  | (l, Ok _) =>
      (with_b4 "OK"
         (with_coils (client_coils s ++ coil_writes (map snd l))
            (with_b4 "OK"
               (with_displayBin (binstring_of l) (with_buttons l s)))),
       Ok tt)
  | (l, Raise e) => (with_buttons l s, Raise e)
  end.
Proof.
  intros Hnd Hlen. unfold setButtonsState.
  unfold bind at 1, gets at 1. rewrite Hlen. cbn [Nat.eqb negb].
  unfold bind at 1, gets at 1. unfold bind at 1.
  pose proof (setButtonsState_loop_spec (self_buttons s) [] []
                (list_ascii_of_string (self_k s)) (self_k s) s) as H.
  simpl in H. rewrite H by auto. clear H.
  destruct (loop_spec _ _) as [l [[]|e]]; cbn [fst snd]; [|reflexivity].
  unfold bind at 1. rewrite getButtonsState_spec. reflexivity.
Qed.

Lemma py_int_truthy c n : py_int c = Ok n -> py_bool n = truthy c.
Proof.
  destruct c as [[] [] [] [] [] [] [] []]; vm_compute; intros H;
    first [discriminate H | injection H as <-; reflexivity].
Qed.

Lemma py_int_error c e : py_int c = Raise e -> e = ValueError.
Proof.
  unfold py_int. destruct (_ && _)%bool; [discriminate|]. congruence.
Qed.

Lemma is_digit_true c : is_digit c = true -> exists n, py_int c = Ok n.
Proof. unfold is_digit. destruct (py_int c); [eauto|discriminate]. Qed.

Lemma is_digit_false c : is_digit c = false -> py_int c = Raise ValueError.
Proof.
  unfold is_digit. destruct (py_int c) eqn:H; [discriminate|].
  intros _. f_equal. eapply py_int_error; eauto.
Qed.

Lemma loop_spec_digits todo : forall cs,
  forallb is_digit cs = true ->
  length todo = length cs ->
  loop_spec todo cs = (zip (map fst todo) (map truthy cs), Ok tt).
Proof.
  induction todo as [|[k c] todo IH]; intros [|ch cs] Hd Hl;
    simpl in *; try discriminate; [reflexivity|].
  apply andb_prop in Hd. destruct Hd as [Hch Hd].
  destruct (is_digit_true _ Hch) as [n Hn]. rewrite Hn.
  rewrite IH by (auto; lia). rewrite (py_int_truthy _ _ Hn). reflexivity.
Qed.

Lemma loop_spec_stops todo : forall pre c post,
  forallb is_digit pre = true ->
  is_digit c = false ->
  length pre < length todo ->
  loop_spec todo (pre ++ c :: post) =
  (zip (take (length pre) (map fst todo)) (map truthy pre)
     ++ drop (length pre) todo, Raise ValueError).
Proof.
  induction todo as [|[k b] todo IH]; intros pre c post Hd Hc Hl;
    simpl in Hl; [lia|].
  destruct pre as [|ch pre].
  - simpl. rewrite (is_digit_false _ Hc). reflexivity.
  - simpl in *. apply andb_prop in Hd. destruct Hd as [Hch Hd].
    destruct (is_digit_true _ Hch) as [n Hn]. rewrite Hn.
    rewrite IH by (auto; lia). rewrite (py_int_truthy _ _ Hn). reflexivity.
Qed.

Lemma is_bit_digit c : is_bit c = true -> is_digit c = true.
Proof.
  unfold is_bit. intros H. apply orb_prop in H.
  destruct H as [H|H]; apply Ascii.eqb_eq in H; subst; reflexivity.
Qed.

Lemma bit_char_truthy c : is_bit c = true -> bit_char (truthy c) = c.
Proof.
  unfold is_bit. intros H. apply orb_prop in H.
  destruct H as [H|H]; apply Ascii.eqb_eq in H; subst; reflexivity.
Qed.

Lemma forallb_bit_digit cs :
  forallb is_bit cs = true -> forallb is_digit cs = true.
Proof.
  induction cs as [|c cs IH]; simpl; [auto|]. intros H.
  apply andb_prop in H. destruct H as [Hc H].
  rewrite (is_bit_digit _ Hc), IH; auto.
Qed.

Lemma map_bit_char_truthy cs :
  forallb is_bit cs = true -> map bit_char (map truthy cs) = cs.
Proof.
  induction cs as [|c cs IH]; simpl; [auto|]. intros H.
  apply andb_prop in H. destruct H as [Hc H].
  rewrite (bit_char_truthy _ Hc), IH; auto.
Qed.

Lemma wf_buttons_NoDup s : wf_buttons s -> NoDup (map fst (self_buttons s)).
Proof.
  unfold wf_buttons. intros ->.
  apply (bool_decide_unpack _). vm_compute. exact I.
Qed.

Lemma wf_buttons_length s : wf_buttons s -> length (self_buttons s) = 24.
Proof.
  unfold wf_buttons. intros H.
  rewrite <- (length_map fst (self_buttons s)), H. reflexivity.
Qed.

Lemma setAll_wrong_length_eq bits s :
  String.length bits <> 24 ->
  setAll bits s =
  (with_k (self_A s)
     (with_b4 "Error! Require 24-bit binary input" (with_k bits s)), Ok tt).
Proof.
  intros Hlen. apply Nat.eqb_neq in Hlen.
  unfold setAll, writeInputCommand, setButtonsState.
  unfold bind at 1, modify at 1. unfold bind at 1, gets at 1.
  cbn [self_k with_k]. rewrite Hlen. reflexivity.
Qed.

(** The state a 24-character entry leaves, as far as the loop got. *)
Lemma setAll_24_eq bits s :
  wf_buttons s ->
  String.length bits = 24 ->
  setAll bits s =
  match loop_spec (self_buttons s) (list_ascii_of_string bits) with
  | (l, Ok _) =>
      (with_b4 "OK"
         (with_coils (client_coils s ++ coil_writes (map snd l))
            (with_b4 "OK"
               (with_displayBin (binstring_of l)
                  (with_buttons l (with_k bits s))))),
       Ok tt)
  | (l, Raise e) => (with_buttons l (with_k bits s), Raise e)
  end.
Proof.
  intros Hwf Hlen.
  unfold setAll, writeInputCommand. unfold bind at 1, modify at 1.
  rewrite setButtonsState_spec; cbn [self_k with_k self_buttons];
    [reflexivity|apply wf_buttons_NoDup, Hwf|exact Hlen].
Qed.

Lemma binstring_of_zip keys cs :
  length cs = length keys ->
  forallb is_bit cs = true ->
  binstring_of (zip keys (map truthy cs)) = string_of_list_ascii cs.
Proof.
  intros Hl Hbits.
  rewrite binstring_of_bits, <- (map_map snd bit_char), snd_zip.
  - rewrite map_bit_char_truthy by exact Hbits. reflexivity.
  - rewrite length_map. lia.
Qed.


Lemma loop_spec_keys todo : forall cs,
  map fst (fst (loop_spec todo cs)) = map fst todo.
Proof.
  induction todo as [|b todo IH]; intros cs; [reflexivity|].
  cbn [loop_spec]. destruct cs as [|c cs]; [reflexivity|].
  destruct (py_int c); [|reflexivity].
  specialize (IH cs). destruct (loop_spec todo cs) as [l r].
  cbn [fst map] in *. rewrite IH. reflexivity.
Qed.

(** The hypothesis on the button dict is an invariant of the window: it
    holds once [__init__] is done, and [setAll] keeps it. *)
Lemma wf_buttons_window0 : wf_buttons window0.
Proof. reflexivity. Qed.

Lemma wf_buttons_setAll bits s :
  wf_buttons s -> wf_buttons (fst (setAll bits s)).
Proof.
  intros Hwf. destruct (Nat.eq_dec (String.length bits) 24) as [Hlen|Hlen].
  - rewrite (setAll_24_eq _ _ Hwf Hlen).
    pose proof (loop_spec_keys (self_buttons s) (list_ascii_of_string bits))
      as Hk.
    destruct (loop_spec (self_buttons s) (list_ascii_of_string bits))
      as [l [[]|e]]; cbn [fst] in *; unfold wf_buttons in *;
      cbn [self_buttons with_b4 with_coils with_displayBin with_buttons
           with_k]; congruence.
  - rewrite (setAll_wrong_length_eq _ _ Hlen). exact Hwf.
Qed.

(** ** The output bank *)

(** C3. An entry whose length is not 24 is rejected: the slot returns
    without touching the buttons, the displayed string or the coils, the
    status field shows "Error! Require 24-bit binary input" and not "OK",
    and the input field is reset to preset A. *)
Theorem setAll_rejects_wrong_length (bits : string) (s : state) :
  String.length bits <> 24 ->
  snd (setAll bits s) = Ok tt /\
  self_buttons (fst (setAll bits s)) = self_buttons s /\
  currentBinaryString (fst (setAll bits s)) = currentBinaryString s /\
  self_displayBin (fst (setAll bits s)) = self_displayBin s /\
  client_coils (fst (setAll bits s)) = client_coils s /\
  self_b4 (fst (setAll bits s)) = "Error! Require 24-bit binary input" /\
  self_b4 (fst (setAll bits s)) <> "OK" /\
  self_k (fst (setAll bits s)) = self_A s.
Proof.
  intros Hlen. rewrite (setAll_wrong_length_eq _ _ Hlen).
  repeat split; try reflexivity. discriminate.
Qed.

Lemma setAll_rejects_wrong_length_witness :
  String.length "0101" <> 24 /\
  self_buttons (fst (setAll "0101" window0)) = self_buttons window0 /\
  self_b4 (fst (setAll "0101" window0)) = "Error! Require 24-bit binary input".
Proof.
  assert (H : String.length "0101" <> 24) by (simpl; lia).
  split; [exact H|].
  destruct (setAll_rejects_wrong_length "0101" window0 H)
    as (_ & Hb & _ & _ & _ & Hs & _).
  split; [exact Hb|exact Hs].
Defined.

(** C4. For a string of 24 characters '0'/'1', setting it and reading the
    buttons back gives the same string, which is also the one displayed;
    the status is "OK" and the 24 coils are written in index order. *)
Theorem setAll_roundtrip (bits : string) (s : state) :
  wf_buttons s ->
  String.length bits = 24 ->
  forallb is_bit (list_ascii_of_string bits) = true ->
  snd (setAll bits s) = Ok tt /\
  currentBinaryString (fst (setAll bits s)) = bits /\
  self_displayBin (fst (setAll bits s)) = bits /\
  self_b4 (fst (setAll bits s)) = "OK" /\
  client_coils (fst (setAll bits s)) =
    client_coils s ++ coil_writes (map truthy (list_ascii_of_string bits)).
Proof.
  intros Hwf Hlen Hbits.
  assert (Hl : length (list_ascii_of_string bits)
               = length (map fst (self_buttons s))).
  { rewrite length_map, length_chars, Hlen.
    symmetry. apply wf_buttons_length, Hwf. }
  rewrite (setAll_24_eq _ _ Hwf Hlen), loop_spec_digits.
  2:{ apply forallb_bit_digit, Hbits. }
  2:{ rewrite length_map in Hl. symmetry. exact Hl. }
  unfold currentBinaryString.
  cbn [fst snd self_buttons self_displayBin self_b4 client_coils
       with_b4 with_coils with_displayBin with_buttons with_k].
  rewrite binstring_of_zip, string_of_list_ascii_of_string by auto.
  rewrite snd_zip by (rewrite length_map; lia).
  auto.
Qed.

Lemma setAll_roundtrip_witness :
  currentBinaryString
    (fst (setAll "101010101010101010101010" window0))
  = "101010101010101010101010".
Proof.
  destruct (setAll_roundtrip "101010101010101010101010" window0)
    as (_ & H & _); [reflexivity|reflexivity|reflexivity|exact H].
Defined.

(** C9. A 24-character entry is checked for its length only. When all its
    characters are digits the entry is applied, every digit other than
    '0' counting as '1'. When its first non-digit stands at position [j]
    the slot raises [ValueError]: the buttons before [j] have been set,
    those from [j] on are as they were, and neither the display, the
    status nor the coils have been touched. *)
Theorem setAll_validates_length_only (bits : string) (s : state) :
  wf_buttons s ->
  String.length bits = 24 ->
  (forallb is_digit (list_ascii_of_string bits) = true ->
   snd (setAll bits s) = Ok tt /\
   self_buttons (fst (setAll bits s)) =
     zip (map fst (self_buttons s))
         (map truthy (list_ascii_of_string bits)) /\
   self_b4 (fst (setAll bits s)) = "OK" /\
   client_coils (fst (setAll bits s)) =
     client_coils s ++ coil_writes (map truthy (list_ascii_of_string bits)))
  /\
  (forall (pre : list ascii) (c : ascii) (post : list ascii),
   list_ascii_of_string bits = pre ++ c :: post ->
   forallb is_digit pre = true ->
   is_digit c = false ->
   snd (setAll bits s) = Raise ValueError /\
   self_buttons (fst (setAll bits s)) =
     zip (take (length pre) (map fst (self_buttons s))) (map truthy pre)
     ++ drop (length pre) (self_buttons s) /\
   self_displayBin (fst (setAll bits s)) = self_displayBin s /\
   self_b4 (fst (setAll bits s)) = self_b4 s /\
   client_coils (fst (setAll bits s)) = client_coils s).
Proof.
  intros Hwf Hlen.
  assert (Hl : length (self_buttons s) = length (list_ascii_of_string bits)).
  { rewrite length_chars, Hlen. apply wf_buttons_length, Hwf. }
  split.
  - intros Hd. rewrite (setAll_24_eq _ _ Hwf Hlen), loop_spec_digits by auto.
    cbn [fst snd self_buttons self_b4 client_coils
         with_b4 with_coils with_displayBin with_buttons with_k].
    rewrite snd_zip by (rewrite !length_map; lia). auto.
  - intros pre c post Hsplit Hpre Hc.
    rewrite (setAll_24_eq _ _ Hwf Hlen), Hsplit, loop_spec_stops; auto.
    rewrite Hsplit, length_app in Hl. simpl in Hl. lia.
Qed.

Lemma setAll_validates_length_only_witness :
  snd (setAll "120000000000000000000000" window0) = Ok tt /\
  currentBinaryString (fst (setAll "120000000000000000000000" window0))
    = "110000000000000000000000" /\
  snd (setAll "11x000000000000000000000"
         (fst (setAll "000000000000000000000001" window0)))
    = Raise ValueError /\
  currentBinaryString
    (fst (setAll "11x000000000000000000000"
            (fst (setAll "000000000000000000000001" window0))))
    = "110000000000000000000001".
Proof.
  destruct (setAll_validates_length_only "120000000000000000000000" window0)
    as [Hdigits _]; [reflexivity|reflexivity|].
  destruct (Hdigits eq_refl) as (Hok & Hbtn & _).
  destruct (setAll_validates_length_only "11x000000000000000000000"
              (fst (setAll "000000000000000000000001" window0)))
    as [_ Hstop]; [reflexivity|reflexivity|].
  destruct (Hstop ["1"; "1"]%char "x"%char
              (list_ascii_of_string "000000000000000000000"))
    as (Hraise & Hpart & _); [reflexivity|reflexivity|reflexivity|].
  split; [exact Hok|]. split.
  { unfold currentBinaryString. rewrite Hbtn. reflexivity. }
  split; [exact Hraise|].
  unfold currentBinaryString. rewrite Hpart. reflexivity.
Defined.

(** ** The dispatcher *)

(** C8, as the code has it. An event that carries none of the labels A,
    B, C, D is passed over: [action] returns normally and changes
    nothing. That covers the [None] every run emits when its routine
    function returns. *)
Theorem action_ignores_unmapped (o : pyobj) (s : state) :
  o <> PyStr "A" -> o <> PyStr "B" -> o <> PyStr "C" -> o <> PyStr "D" ->
  action o s = (s, Ok tt).
Proof.
  intros HA HB HC HD. unfold action.
  destruct o as [l|]; [|reflexivity]. cbn [py_eq_str].
  destruct (String.eqb_spec l "A"); [congruence|].
  destruct (String.eqb_spec l "B"); [congruence|].
  destruct (String.eqb_spec l "C"); [congruence|].
  destruct (String.eqb_spec l "D"); [congruence|].
  reflexivity.
Qed.

Lemma action_ignores_unmapped_witness :
  action (PyStr "E") window0 = (window0, Ok tt) /\
  action PyNone window0 = (window0, Ok tt).
Proof.
  split.
  - apply (action_ignores_unmapped (PyStr "E") window0); discriminate.
  - apply (action_ignores_unmapped PyNone window0); discriminate.
Defined.

(** C8, counterexample. The label "E" is in no branch of [action], and
    the slot ends without any error, the window as it was. *)
Lemma action_unmapped_label_not_fatal :
  snd (action (PyStr "E") window0) = Ok tt /\
  fst (action (PyStr "E") window0) = window0 /\
  ~ (exists e : exn, snd (action (PyStr "E") window0) = Raise e).
Proof.
  split; [reflexivity|]. split; [reflexivity|].
  intros [e He]. discriminate He.
Qed.

(** ** The stage mover *)

(** A binary64 product changes sign with either factor. *)
Lemma SFmul_opp_l prec emax x y :
  SFmul prec emax (SFopp x) y = SFopp (SFmul prec emax x y).
Proof.
  destruct x as [sx|sx| |sx mx ex], y as [sy|sy| |sy my ey];
    cbn [SFmul SFopp]; try reflexivity;
    try (destruct sx, sy; reflexivity).
  unfold binary_round_aux.
  destruct (shr_fexp prec emax _ _ _) as [mrs e'].
  destruct (shr_fexp prec emax _ _ _) as [mrs2 e2].
  destruct (shr_m mrs2); [| destruct (_ <=? _)%Z |];
    destruct sx, sy; reflexivity.
Qed.

Lemma float_opp_mul (d c : float) : (- d * c = - (d * c))%float.
Proof.
  rewrite <- (SF2Prim_Prim2SF (- d * c)%float).
  rewrite <- (SF2Prim_Prim2SF (- (d * c))%float).
  f_equal. rewrite mul_spec, !opp_spec, mul_spec. apply SFmul_opp_l.
Qed.

Section StageProperties.

Variable pyfloat : string -> option float.

Lemma move_other INPUT s :
  INPUT <> "1000" -> INPUT <> "0001" ->
  INPUT <> "0100" -> INPUT <> "0010" ->
  move pyfloat INPUT s =
  (s, Raise (match pyfloat (self_V s) with
             | Some _ => UnboundLocalError
             | None => ValueError
             end)).
Proof.
  intros H1 H2 H3 H4. unfold move.
  apply String.eqb_neq in H1, H2, H3, H4. rewrite H1, H2, H3, H4.
  unfold bind, gets, ret, float_of_text, raise.
  destruct (pyfloat (self_V s)); reflexivity.
Qed.

(** A move that returns has dispatched exactly one command. *)
Lemma move_returns INPUT s s' :
  move pyfloat INPUT s = (s', Ok tt) ->
  exists axis v d, s' = dispatched axis v d s.
Proof.
  unfold move, dispatched, float_of_text, bind, gets, ret, raise,
    mcl_move, print, modify.
  intros H.
  repeat match type of H with
         | context [String.eqb ?a ?b] => destruct (String.eqb a b)
         | context [self_D s] => destruct (self_D s)
         | context [pyfloat ?t] => destruct (pyfloat t)
         end;
    try discriminate H; injection H as <-; eauto.
Qed.

(** C6, as the code has it. For the four one-hot inputs, with the
    distance text read as [d] and the velocity text as [v], [move]
    dispatches exactly one command to the stage: axis 1 and
    [d * (1/1000)] for "1000", axis 1 and [-(d * (1/1000))] for "0001",
    axis 2 and [-(d * (1/1000))] for "0100", axis 2 and [d * (1/1000)]
    for "0010". The factor is the binary64 value of [1/1000]; the code
    negates [d] before it scales, which gives the same number. *)
Theorem move_one_hot (s : state) (dt : string) (d v : float) :
  self_D s = PLineEdit dt ->
  pyfloat dt = Some d ->
  pyfloat (self_V s) = Some v ->
  move pyfloat "1000" s
    = (dispatched 1 v (d * (1 / 1000))%float s, Ok tt) /\
  move pyfloat "0001" s
    = (dispatched 1 v (- (d * (1 / 1000)))%float s, Ok tt) /\
  move pyfloat "0100" s
    = (dispatched 2 v (- (d * (1 / 1000)))%float s, Ok tt) /\
  move pyfloat "0010" s
    = (dispatched 2 v (d * (1 / 1000))%float s, Ok tt).
Proof.
  intros HD Hd Hv. rewrite <- !float_opp_mul.
  unfold move, dispatched, float_of_text, bind, gets, ret,
    mcl_move, print, modify.
  cbn [String.eqb Ascii.eqb Bool.eqb]. rewrite HD, Hd, Hv.
  repeat split; reflexivity.
Qed.

(** C7. An input other than the four one-hot patterns makes [move]
    fail before anything reaches the stage: the state is as it was, the
    exception is the [UnboundLocalError] of the unbound [axis], or the
    [ValueError] of a velocity text that is no float, raised first. *)
Theorem move_rejects_other_patterns (INPUT : string) (s : state) :
  INPUT <> "1000" -> INPUT <> "0001" ->
  INPUT <> "0100" -> INPUT <> "0010" ->
  fst (move pyfloat INPUT s) = s /\
  stage_moves (fst (move pyfloat INPUT s)) = stage_moves s /\
  (exists e : exn, snd (move pyfloat INPUT s) = Raise e) /\
  (forall v : float, pyfloat (self_V s) = Some v ->
     snd (move pyfloat INPUT s) = Raise UnboundLocalError).
Proof.
  intros H1 H2 H3 H4. rewrite (move_other _ _ H1 H2 H3 H4).
  cbn [fst snd]. repeat split; [eauto|].
  intros v Hv. rewrite Hv. reflexivity.
Qed.

(** C10. [self.resetButtonsState] names no method, whereas
    [resetMCLButtonsState] does. So whenever the move made for a click
    returns, the slot ends with [AttributeError] and the direction
    buttons stay as the click left them. From a fresh window, a click
    on "-X" moves the stage and leaves "-X" checked; the next click, on
    "+X", then reads the two-bit pattern "1001", which moves nothing. *)
Theorem getMCLButtonsState_never_resets :
  MainWindow_method "resetButtonsState" = None /\
  (exists m, MainWindow_method "resetMCLButtonsState" = Some m) /\
  (forall s s' : state,
     move pyfloat (binstring_of (self_MCLbuttons s))
       (with_MCL (binstring_of (self_MCLbuttons s)) s) = (s', Ok tt) ->
     getMCLButtonsState pyfloat s = (s', Raise AttributeError) /\
     self_MCLbuttons s' = self_MCLbuttons s /\
     length (stage_moves s') = S (length (stage_moves s))) /\
  (let s1 := fst (click_MCL float_of_digits "-X" window0) in
   let s2 := fst (click_MCL float_of_digits "+X" s1) in
   snd (click_MCL float_of_digits "-X" window0) = Raise AttributeError /\
   self_MCL s1 = "1000" /\
   length (stage_moves s1) = 1 /\
   self_MCLbuttons s1
     = [("-X", true); ("+Y", false); ("-Y", false); ("+X", false)] /\
   snd (click_MCL float_of_digits "+X" s1) = Raise UnboundLocalError /\
   self_MCL s2 = "1001" /\
   stage_moves s2 = stage_moves s1).
Proof.
  split; [reflexivity|]. split; [eexists; reflexivity|]. split.
  - intros s s' Hmove. split.
    + unfold getMCLButtonsState.
      unfold bind at 1, gets at 1. unfold bind at 1, modify at 1.
      unfold bind at 1. rewrite Hmove. reflexivity.
    + destruct (move_returns _ _ _ Hmove) as (axis & v & d & ->).
      split; [reflexivity|].
      unfold dispatched. cbn [stage_moves with_stdout with_moves with_MCL].
      rewrite length_app. simpl. lia.
  - vm_compute. repeat split.
Qed.

End StageProperties.

Lemma move_one_hot_witness :
  stage_moves (fst (move float_of_digits "0001" window0))
  = [(1%Z, 1%float, (- (50 * (1 / 1000)))%float)].
Proof.
  destruct (move_one_hot float_of_digits window0 "50" 50%float 1%float)
    as (_ & H & _); [reflexivity|reflexivity|reflexivity|].
  rewrite H. reflexivity.
Defined.

(** C6, counterexample. With 9 in the distance field, the distance sent
    for "1000" is [9 * (1/1000)], which is not the binary64 quotient
    [9 / 1000]: the two differ in the last place. *)
Lemma move_distance_is_not_quotient :
  stage_moves
    (fst (move float_of_digits "1000" (with_D (PLineEdit "9") window0)))
  = [(1%Z, 1%float, (9 * (1 / 1000))%float)] /\
  (9 * (1 / 1000))%float <> (9 / 1000)%float.
Proof.
  split; [reflexivity|]. vm_compute. intros H. discriminate H.
Qed.

Lemma move_rejects_other_patterns_witness :
  snd (move float_of_digits "0000" window0) = Raise UnboundLocalError /\
  snd (move float_of_digits "1100" window0) = Raise UnboundLocalError /\
  stage_moves (fst (move float_of_digits "1100" window0)) = [].
Proof.
  destruct (move_rejects_other_patterns float_of_digits "0000" window0)
    as (_ & _ & _ & H0); [discriminate|discriminate|discriminate|discriminate|].
  destruct (move_rejects_other_patterns float_of_digits "1100" window0)
    as (_ & Hm & _ & H1); [discriminate|discriminate|discriminate|discriminate|].
  split; [exact (H0 1%float eq_refl)|].
  split; [exact (H1 1%float eq_refl)|exact Hm].
Defined.

Lemma getMCLButtonsState_never_resets_witness :
  let s := with_MCLbuttons
             [("-X", true); ("+Y", false); ("-Y", false); ("+X", false)]
             window0 in
  snd (getMCLButtonsState float_of_digits s) = Raise AttributeError /\
  self_MCLbuttons (fst (getMCLButtonsState float_of_digits s))
    = self_MCLbuttons s.
Proof.
  intros s.
  destruct (getMCLButtonsState_never_resets float_of_digits)
    as (_ & _ & H & _).
  destruct (H s (fst (move float_of_digits "1000" (with_MCL "1000" s))))
    as (Hr & Hb & _); [reflexivity|].
  rewrite Hr. split; [reflexivity|exact Hb].
Defined.

(** ** Runs, the pool and the GUI queue *)

Lemma emitted_by_cons i ev tr :
  emitted_by i (ev :: tr) = emitted_by i [ev] ++ emitted_by i tr.
Proof. unfold emitted_by. simpl. destruct ev; try reflexivity.
  destruct (Nat.eqb i i0); reflexivity. Qed.

Lemma start_queued_lookup ws : forall i w,
  ws !! i = Some w ->
  exists w', start_queued ws !! i = Some w' /\ w_ops w' = w_ops w.
Proof.
  induction ws as [|x ws IH]; intros i w H; [discriminate|].
  simpl. destruct (w_status x) eqn:Hx.
  - destruct i; simpl in *; [injection H as <-|]; eauto.
  - destruct i; simpl in *; [injection H as <-|]; eauto.
  - destruct i; simpl in *; [injection H as <-|]; eauto.
Qed.

Lemma step_keeps_run l sys sys' ev i w :
  step l sys = Some (sys', ev) ->
  workers sys !! i = Some w ->
  exists w', workers sys' !! i = Some w' /\
             emitted_by i [ev] ++ emits_of (w_ops w') = emits_of (w_ops w).
Proof.
  intros Hstep Hw. destruct l as [r|j|]; simpl in Hstep.
  - injection Hstep as <- <-. exists w. split; [|reflexivity].
    simpl. apply lookup_app_l_Some. exact Hw.
  - unfold worker_step in Hstep.
    destruct (workers sys !! j) as [[[] [|op rest]]|] eqn:Hj; try discriminate.
    destruct (decide (i = j)) as [->|Hne].
    + rewrite Hj in Hw. injection Hw as <-.
      assert (Hlt : j < length (workers sys)) by (eapply lookup_lt_Some; eauto).
      destruct op; injection Hstep as <- <-; simpl.
      * eexists. rewrite list_lookup_insert_eq by exact Hlt. split; [reflexivity|].
        unfold emitted_by. simpl. rewrite Nat.eqb_refl. reflexivity.
      * eexists. rewrite list_lookup_insert_eq by exact Hlt. split; reflexivity.
      * destruct (start_queued_lookup (<[j:=mkWorker Finished rest]> (workers sys))
                    j (mkWorker Finished rest)) as (w' & Hw' & Hops).
        { apply list_lookup_insert_eq, Hlt. }
        exists w'. split; [exact Hw'|]. rewrite Hops. reflexivity.
    + assert (He : emitted_by i [ev] = []).
      { destruct op; injection Hstep as <- <-; unfold emitted_by; simpl; auto.
        destruct (Nat.eqb_spec i j); [contradiction|reflexivity]. }
      rewrite He.
      destruct op; injection Hstep as <- <-; simpl.
      * exists w. rewrite list_lookup_insert_ne by auto. auto.
      * exists w. rewrite list_lookup_insert_ne by auto. auto.
      * destruct (start_queued_lookup (<[j:=mkWorker Finished rest]> (workers sys))
                    i w) as (w' & Hw' & Hops).
        { rewrite list_lookup_insert_ne by auto. exact Hw. }
        exists w'. split; [exact Hw'|]. rewrite Hops. reflexivity.
  - unfold gui_step in Hstep. destruct (gui_queue sys) as [|c q]; [discriminate|].
    destruct (slot c (win sys)) as [s' res]. injection Hstep as <- <-.
    exists w. auto.
Qed.

Lemma run_keeps_run sched : forall sys sys' tr i w,
  run sched sys = Some (sys', tr) ->
  workers sys !! i = Some w ->
  exists w', workers sys' !! i = Some w' /\
             emitted_by i tr ++ emits_of (w_ops w') = emits_of (w_ops w).
Proof.
  induction sched as [|l sched IH]; intros sys sys' tr i w Hrun Hw.
  - injection Hrun as <- <-. exists w. auto.
  - simpl in Hrun. destruct (step l sys) as [[sys1 ev]|] eqn:Hstep; [|discriminate].
    destruct (run sched sys1) as [[sys2 evs]|] eqn:Hrest; [|discriminate].
    injection Hrun as <- <-.
    destruct (step_keeps_run _ _ _ _ _ _ Hstep Hw) as (w1 & Hw1 & He1).
    destruct (IH _ _ _ _ _ Hrest Hw1) as (w2 & Hw2 & He2).
    exists w2. split; [exact Hw2|].
    rewrite emitted_by_cons, <- app_assoc, He2. exact He1.
Qed.

Lemma posted_cons ev tr : posted (ev :: tr) = posted [ev] ++ posted tr.
Proof. unfold posted. destruct ev; reflexivity. Qed.

Lemma handled_cons ev tr : handled (ev :: tr) = handled [ev] ++ handled tr.
Proof. unfold handled. destruct ev; reflexivity. Qed.

(** The queue is first in, first out: what was handled, then what still
    waits, is what was queued followed by what was posted. *)
Lemma run_queue_fifo sched : forall sys sys' tr,
  run sched sys = Some (sys', tr) ->
  map fst (handled tr) ++ gui_queue sys' = gui_queue sys ++ posted tr.
Proof.
  induction sched as [|l sched IH]; intros sys sys' tr Hrun.
  - injection Hrun as <- <-. simpl. rewrite app_nil_r. reflexivity.
  - simpl in Hrun. destruct (step l sys) as [[sys1 ev]|] eqn:Hstep; [|discriminate].
    destruct (run sched sys1) as [[sys2 evs]|] eqn:Hrest; [|discriminate].
    injection Hrun as <- <-. specialize (IH _ _ _ Hrest).
    rewrite handled_cons, posted_cons, map_app, <- app_assoc, IH.
    destruct l as [r|j|]; simpl in Hstep.
    + injection Hstep as <- <-. reflexivity.
    + unfold worker_step in Hstep.
      destruct (workers sys !! j) as [[[] [|[o|ms|] rest]]|]; try discriminate;
        injection Hstep as <- <-; simpl; rewrite <- ?app_assoc; reflexivity.
    + unfold gui_step in Hstep. destruct (gui_queue sys) as [|c q]; [discriminate|].
      destruct (slot c (win sys)) as [s' res]. injection Hstep as <- <-.
      reflexivity.
Qed.

(** Only the GUI thread touches the window: its state is the one the
    handled slots produce in sequence. *)
Lemma run_handled_dispatch sched : forall sys sys' tr,
  run sched sys = Some (sys', tr) ->
  handled tr = dispatch (map fst (handled tr)) (win sys) /\
  win sys' = dispatch_final (map fst (handled tr)) (win sys).
Proof.
  induction sched as [|l sched IH]; intros sys sys' tr Hrun.
  - injection Hrun as <- <-. split; reflexivity.
  - simpl in Hrun. destruct (step l sys) as [[sys1 ev]|] eqn:Hstep; [|discriminate].
    destruct (run sched sys1) as [[sys2 evs]|] eqn:Hrest; [|discriminate].
    injection Hrun as <- <-. destruct (IH _ _ _ Hrest) as [IH1 IH2].
    rewrite handled_cons.
    destruct l as [r|j|]; simpl in Hstep.
    + injection Hstep as <- <-. simpl. auto.
    + unfold worker_step in Hstep.
      destruct (workers sys !! j) as [[[] [|[o|ms|] rest]]|]; try discriminate;
        injection Hstep as <- <-; simpl; auto.
    + unfold gui_step in Hstep. destruct (gui_queue sys) as [|c q]; [discriminate|].
      destruct (slot c (win sys)) as [s' res] eqn:Hslot. injection Hstep as <- <-.
      simpl in *. rewrite Hslot. simpl. rewrite <- IH1. split; [reflexivity|exact IH2].
Qed.

(** With a single worker and no further start, what was posted and what
    the worker has left make up its whole run. *)
Lemma run_single_worker sched : forall sys sys' tr w,
  forallb internal sched = true ->
  workers sys = [w] ->
  run sched sys = Some (sys', tr) ->
  exists w', workers sys' = [w'] /\
             posted tr ++ calls_of (w_ops w') = calls_of (w_ops w).
Proof.
  induction sched as [|l sched IH]; intros sys sys' tr w Hint Hw Hrun.
  - injection Hrun as <- <-. exists w. auto.
  - simpl in Hrun, Hint. apply andb_prop in Hint. destruct Hint as [Hl Hint].
    destruct (step l sys) as [[sys1 ev]|] eqn:Hstep; [|discriminate].
    destruct (run sched sys1) as [[sys2 evs]|] eqn:Hrest; [|discriminate].
    injection Hrun as <- <-.
    destruct l as [r|j|]; simpl in Hstep; [discriminate| |].
    + unfold worker_step in Hstep. rewrite Hw in Hstep.
      destruct j as [|j]; [|discriminate]. simpl in Hstep.
      destruct w as [[] [|[o|ms|] rest]]; try discriminate;
        injection Hstep as <- <-;
        (eapply IH in Hrest as (w' & Hw' & Hp); [|exact Hint|reflexivity]);
        exists w'; (split; [exact Hw'|]);
        rewrite posted_cons, <- app_assoc, Hp; reflexivity.
    + unfold gui_step in Hstep. destruct (gui_queue sys) as [|c q]; [discriminate|].
      destruct (slot c (win sys)) as [s' res]. injection Hstep as <- <-.
      eapply IH in Hrest as (w' & Hw' & Hp); [|exact Hint|exact Hw].
      exists w'. split; [exact Hw'|].
      rewrite posted_cons, <- app_assoc, Hp. reflexivity.
Qed.

Lemma dispatch_app cs1 : forall cs2 s,
  dispatch (cs1 ++ cs2) s = dispatch cs1 s ++ dispatch cs2 (dispatch_final cs1 s).
Proof.
  induction cs1 as [|c cs1 IH]; intros cs2 s; simpl; [reflexivity|].
  rewrite IH. reflexivity.
Qed.

Lemma routine1_dispatch_reflects :
  Forall reflects (dispatch routine1_calls window0).
Proof.
  vm_compute. repeat (constructor; [first [exact I | repeat split]|]). constructor.
Qed.

Lemma runfunction_workers r sys :
  workers (runfunction r sys) =
  workers sys ++
  [mkWorker (if Nat.ltb (activeThreadCount (workers sys)) (maxThreadCount sys)
             then Running else Queued)
            (Worker_run (executefn r))].
Proof. reflexivity. Qed.

Lemma win_mkSystem s t ws q u : win (mkSystem s t ws q u) = s.
Proof. reflexivity. Qed.

Lemma win_runfunction r sys : win (runfunction r sys) = win sys.
Proof. reflexivity. Qed.

Lemma win_system0 threads : win (system0 threads) = window0.
Proof. exact (win_mkSystem window0 threads [] [] []). Qed.

Lemma gui_queue_start r threads :
  gui_queue (runfunction r (system0 threads)) = [].
Proof. reflexivity. Qed.

Lemma quiescentb_true sys : quiescentb sys = true -> quiescent sys.
Proof.
  unfold quiescentb, quiescent. destruct (gui_queue sys); [|discriminate].
  intros H. split; [reflexivity|].
  apply Forall_forall. intros w Hin.
  rewrite forallb_forall in H. apply list_elem_of_In in Hin.
  specialize (H w Hin). destruct (w_ops w); [reflexivity|discriminate].
Qed.

Lemma quiescent_stuck sys w :
  workers sys = [w] -> quiescent sys ->
  forall l, internal l = true -> step l sys = None.
Proof.
  intros Hw [Hq Hops] [r|j|] Hl; [discriminate| |].
  - simpl. unfold worker_step. rewrite Hw in *.
    apply Forall_cons in Hops. destruct Hops as [Hops _].
    destruct j as [|j]; [|reflexivity]. simpl.
    destruct w as [st ops]. simpl in Hops. subst ops.
    destruct st; reflexivity.
  - simpl. unfold gui_step. rewrite Hq. reflexivity.
Qed.

Lemma lockstep1_completes n :
  option_map (fun p => quiescentb (fst p) && paced (snd p))
    (run lockstep1 (runfunction R1 (system0 (S n)))) = Some true.
Proof. vm_compute. reflexivity. Qed.

(** With two threads, the run of routine 1 started first performs its 42
    operations after routine 2 was started. *)
Lemma old_run_emits_all :
  option_map (fun p => emitted_by 0 (snd p))
    (run (User_start R2 :: replicate 42 (Worker_step 0))
       (runfunction R1 (system0 2)))
  = Some (map PyStr routine1_labels ++ [PyNone]).
Proof. vm_compute. reflexivity. Qed.

(** ** The routine engine *)

(** C2, counterexample. The worker does not wait for the GUI thread. In
    the schedule in which it takes five steps on its own it emits A,
    sleeps, emits B, sleeps and emits A again, while no slot has run:
    the two first events still wait in the queue with the third, and the
    outputs have never shown preset B. And a whole run emits 21 times on
    [result], not 20: the last emission carries [None]. *)
Lemma routine1_runs_ahead :
  option_map
    (fun p : system * list event =>
       (emitted_by 0 (snd p),
        map fst (handled (snd p)),
        gui_queue (fst p),
        currentBinaryString (win (fst p))))
    (run (replicate 5 (Worker_step 0)) (runfunction R1 (system0 1)))
  = Some ([PyStr "A"; PyStr "B"; PyStr "A"],
          [],
          [Call_action (PyStr "A"); Call_action (PyStr "B");
           Call_action (PyStr "A")],
          "000000000000000000000000") /\
  option_map
    (fun p : system * list event =>
       (length (emitted_by 0 (snd p)), last (emitted_by 0 (snd p))))
    (run (replicate 42 (Worker_step 0)) (runfunction R1 (system0 1)))
  = Some (21, Some PyNone).
Proof. split; vm_compute; reflexivity. Qed.

(** C2, as the code has it. A run of routine 1 emits on [result] the
    labels A, B ten times over, twenty in all, then the [None] its
    function returns; [finished] is the last thing it emits. Delivery
    is queued and the worker does not wait; but whatever the
    interleaving of the worker and the GUI thread, the emissions come in
    that order, the slots are run in that order, and each label, once
    its slot has run, has left its preset (A all '0', B all '1') on the
    buttons, in the display and on the coils, with status "OK". Once
    nothing is left to do, the twenty labels, the [None] and the
    completion have been handled, "Thread complete!" has been printed
    once, the outputs show preset B, and no further step is possible.
    The lockstep schedule, in which the GUI thread handles each emission
    during the sleep that follows it, ends in that state, every emission
    applied before the worker goes on. *)
Theorem routine1_end_to_end (threads : nat) :
  0 < threads ->
  length routine1_labels = 20 /\
  emits_of (Worker_run executefn1) = map PyStr routine1_labels ++ [PyNone] /\
  (forall (sched : list label) (sys' : system) (tr : list event),
     forallb internal sched = true ->
     run sched (runfunction R1 (system0 threads)) = Some (sys', tr) ->
     emitted_by 0 tr `prefix_of` map PyStr routine1_labels ++ [PyNone] /\
     map fst (handled tr) `prefix_of` routine1_calls /\
     Forall reflects (handled tr) /\
     (quiescent sys' ->
      emitted_by 0 tr = map PyStr routine1_labels ++ [PyNone] /\
      map fst (handled tr) = routine1_calls /\
      stdout (win sys') = [Line_thread_complete] /\
      currentBinaryString (win sys') = "111111111111111111111111" /\
      forall l : label, internal l = true -> step l sys' = None)) /\
  forallb internal lockstep1 = true /\
  (exists (sys' : system) (tr : list event),
     run lockstep1 (runfunction R1 (system0 threads)) = Some (sys', tr) /\
     quiescent sys' /\
     paced tr = true).
Proof.
  intros Hthreads.
  split; [reflexivity|]. split; [reflexivity|]. split.
  - intros sched sys' tr Hint Hrun.
    destruct (run_keeps_run _ _ _ _ 0 _ Hrun
                (eq_refl : workers (runfunction R1 (system0 threads)) !! 0
                           = Some (mkWorker _ (Worker_run (executefn R1)))))
      as (w0 & Hw0 & Hem).
    destruct (run_single_worker _ _ _ _ _ Hint
                (runfunction_workers R1 (system0 threads)) Hrun)
      as (w1 & Hw1 & Hpost).
    pose proof (run_queue_fifo _ _ _ _ Hrun) as Hfifo.
    destruct (run_handled_dispatch _ _ _ _ Hrun) as [Hdisp Hwin].
    rewrite win_runfunction, win_system0 in Hdisp, Hwin.
    rewrite gui_queue_start in Hfifo. simpl in Hfifo.
    cbn [w_ops] in Hem, Hpost.
    change (emits_of (Worker_run (executefn R1)))
      with (map PyStr routine1_labels ++ [PyNone]) in Hem.
    change (calls_of (Worker_run (executefn R1))) with routine1_calls in Hpost.
    rewrite <- Hfifo, <- app_assoc in Hpost.
    rewrite Hw1 in Hw0. injection Hw0 as ->.
    split; [eexists; symmetry; exact Hem|].
    split; [eexists; symmetry; exact Hpost|].
    split.
    + pose proof routine1_dispatch_reflects as Hall.
      rewrite <- Hpost, dispatch_app, <- Hdisp in Hall.
      apply Forall_app in Hall. exact (proj1 Hall).
    + intros Hq. pose proof Hq as [Hqueue Hops].
      rewrite Hw1 in Hops. apply Forall_cons in Hops. destruct Hops as [Hops _].
      rewrite Hqueue, Hops in Hpost. rewrite Hops in Hem.
      cbn [calls_of emits_of omap app] in Hpost, Hem.
      rewrite !app_nil_r in *.
      split; [exact Hem|]. split; [exact Hpost|].
      rewrite Hwin, Hpost.
      split; [vm_compute; reflexivity|]. split; [vm_compute; reflexivity|].
      exact (quiescent_stuck _ _ Hw1 Hq).
  - split; [reflexivity|].
    destruct threads as [|n]; [lia|].
    pose proof (lockstep1_completes n) as Hc.
    destruct (run lockstep1 (runfunction R1 (system0 (S n))))
      as [[sys' tr]|]; [|discriminate Hc].
    exists sys', tr. split; [reflexivity|].
    simpl in Hc. injection Hc as Hc. apply andb_prop in Hc.
    split; [apply quiescentb_true|]; tauto.
Qed.

Lemma routine1_end_to_end_witness :
  exists (sys' : system) (tr : list event),
    run lockstep1 (runfunction R1 (system0 4)) = Some (sys', tr) /\
    quiescent sys' /\
    paced tr = true.
Proof.
  assert (H : 0 < 4) by lia.
  destruct (routine1_end_to_end 4 H) as (_ & _ & _ & _ & Hex).
  exact Hex.
Defined.

(** C1, on the code. A press on "Start routine r" always goes through:
    the slot has no failure path, it hands a new worker to the pool, which
    runs it at once when a thread is free and queues it otherwise; the
    runs already there are left as they are. With two threads, starting
    routine 3 while the run of routine 1 sleeps gives two running
    workers, and the outputs follow both: A from run 0, A from run 1, B
    from run 0, B then C from run 1. *)
Theorem start_while_active_is_accepted :
  (forall (r : routine) (sys : system),
     step (User_start r) sys = Some (runfunction r sys, Ev_started r) /\
     workers (runfunction r sys) =
       workers sys ++
       [mkWorker
          (if Nat.ltb (activeThreadCount (workers sys)) (maxThreadCount sys)
           then Running else Queued)
          (Worker_run (executefn r))] /\
     win (runfunction r sys) = win sys /\
     gui_queue (runfunction r sys) = gui_queue sys /\
     unhandled (runfunction r sys) = unhandled sys) /\
  option_map
    (fun p : system * list event =>
       (map w_status (workers (fst p)),
        emitted_by 0 (snd p),
        emitted_by 1 (snd p),
        map (fun h => (fst h, currentBinaryString (snd h))) (handled (snd p)),
        unhandled (fst p)))
    (run two_runs (system0 2))
  = Some ([Running; Running],
          [PyStr "A"; PyStr "B"],
          [PyStr "A"; PyStr "B"; PyStr "C"],
          [(Call_action (PyStr "A"), "000000000000000000000000");
           (Call_action (PyStr "A"), "000000000000000000000000");
           (Call_action (PyStr "B"), "111111111111111111111111");
           (Call_action (PyStr "B"), "111111111111111111111111");
           (Call_action (PyStr "C"), "101010101010101010101010")],
          []).
Proof.
  split.
  - intros r sys. repeat split.
  - vm_compute. reflexivity.
Qed.

(** C5, counterexample. Routine 2 is started while the run of routine 1
    is active; the old run then performs the 42 operations of its
    [Worker.run] and emits all twenty of its labels, and [None]. *)
Lemma start_does_not_supersede : ~ start_supersedes.
Proof.
  intros H. pose proof old_run_emits_all as Hall.
  destruct (run (User_start R2 :: replicate 42 (Worker_step 0))
              (runfunction R1 (system0 2))) as [[sys' tr]|] eqn:Hrun;
    [|discriminate Hall].
  specialize (H (runfunction R1 (system0 2)) 0
                (mkWorker Running (Worker_run executefn1)) R2 _ sys' tr
                eq_refl eq_refl Hrun).
  simpl in Hall. injection Hall as Hall. rewrite Hall in H.
  simpl in H. lia.
Qed.

Lemma well_ended_tail op rest :
  well_ended (op :: rest) = true -> well_ended rest = true.
Proof.
  destruct op; simpl; auto. destruct rest; [reflexivity|discriminate].
Qed.

Lemma well_ended_drop k : forall ops,
  well_ended ops = true -> well_ended (drop k ops) = true.
Proof.
  induction k as [|k IH]; intros [|op ops] H; simpl; auto.
  apply IH. eapply well_ended_tail, H.
Qed.

Lemma well_ended_run r : well_ended (Worker_run (executefn r)) = true.
Proof. destruct r; reflexivity. Qed.

Lemma start_queued_keeps ws : forall i w,
  ws !! i = Some w -> w_status w <> Queued -> start_queued ws !! i = Some w.
Proof.
  induction ws as [|x ws IH]; intros i w H Hq; [discriminate|].
  simpl. destruct i as [|i]; simpl in H.
  - injection H as ->. destruct (w_status w) eqn:Hw;
      [contradiction|reflexivity|reflexivity].
  - destruct (w_status x); simpl; auto.
Qed.

(** The step of a run that is under way: always possible, it performs the
    next operation and leaves the run under way. *)
Lemma own_step i sys op rest :
  workers sys !! i = Some (mkWorker Running (op :: rest)) ->
  well_ended (op :: rest) = true ->
  exists (sys1 : system) (ev : event) (w1 : worker),
    step (Worker_step i) sys = Some (sys1, ev) /\
    workers sys1 !! i = Some w1 /\
    w_ops w1 = rest /\
    under_way w1 /\
    emitted_by i [ev] = emits_of [op].
Proof.
  intros Hw Hend.
  assert (Hlt : i < length (workers sys)) by (eapply lookup_lt_Some; eauto).
  pose proof (well_ended_tail _ _ Hend) as Hrest.
  cbn [step]. unfold worker_step. rewrite Hw.
  destruct op as [o|ms|].
  - eexists _, _, (mkWorker Running rest). split; [reflexivity|].
    split; [apply list_lookup_insert_eq, Hlt|]. split; [reflexivity|].
    split; [repeat split; [exact Hrest|discriminate]|].
    unfold emitted_by. simpl. rewrite Nat.eqb_refl. reflexivity.
  - eexists _, _, (mkWorker Running rest). split; [reflexivity|].
    split; [apply list_lookup_insert_eq, Hlt|]. split; [reflexivity|].
    split; [repeat split; [exact Hrest|discriminate]|reflexivity].
  - destruct rest; [|discriminate Hend].
    eexists _, _, (mkWorker Finished []). split; [reflexivity|].
    split.
    { cbn [workers post set_workers]. apply start_queued_keeps;
        [apply list_lookup_insert_eq, Hlt|discriminate]. }
    split; [reflexivity|].
    split; [repeat split; [discriminate|contradiction]|reflexivity].
Qed.

Lemma step_under_way l sys sys' ev i w :
  step l sys = Some (sys', ev) ->
  workers sys !! i = Some w ->
  under_way w ->
  exists w', workers sys' !! i = Some w' /\ under_way w'.
Proof.
  intros Hstep Hw Hu. pose proof Hu as (Hend & Hq & Hrun).
  destruct l as [r|j|]; cbn [step] in Hstep.
  - injection Hstep as <- <-. exists w. split; [|exact Hu].
    apply lookup_app_l_Some, Hw.
  - destruct (decide (j = i)) as [->|Hne].
    + destruct w as [st [|op rest]].
      { unfold worker_step in Hstep. rewrite Hw in Hstep.
        destruct st; discriminate Hstep. }
      cbn [w_ops w_status] in *.
      rewrite (Hrun ltac:(discriminate)) in Hw.
      destruct (own_step _ _ _ _ Hw Hend)
        as (sys1 & ev1 & w1 & Hs1 & Hw1 & _ & Hu1 & _).
      cbn [step] in Hs1. rewrite Hs1 in Hstep. injection Hstep as <- _.
      eauto.
    + exists w. split; [|exact Hu].
      unfold worker_step in Hstep.
      destruct (workers sys !! j) as [[[] [|[o|ms|] rest]]|];
        try discriminate Hstep; injection Hstep as <- _;
        cbn [workers post set_workers];
        try (rewrite list_lookup_insert_ne by auto; exact Hw).
      apply start_queued_keeps; [|exact Hq].
      rewrite list_lookup_insert_ne by auto. exact Hw.
  - unfold gui_step in Hstep. destruct (gui_queue sys) as [|c q]; [discriminate|].
    destruct (slot c (win sys)) as [s' res]. injection Hstep as <- _.
    exists w. auto.
Qed.

Lemma run_under_way sched : forall sys sys' tr i w,
  run sched sys = Some (sys', tr) ->
  workers sys !! i = Some w ->
  under_way w ->
  exists w', workers sys' !! i = Some w' /\ under_way w'.
Proof.
  induction sched as [|l sched IH]; intros sys sys' tr i w Hrun Hw Hu.
  - injection Hrun as <- _. eauto.
  - simpl in Hrun. destruct (step l sys) as [[sys1 ev]|] eqn:Hstep; [|discriminate].
    destruct (run sched sys1) as [[sys2 evs]|] eqn:Hrest; [|discriminate].
    injection Hrun as <- _.
    destruct (step_under_way _ _ _ _ _ _ Hstep Hw Hu) as (w1 & Hw1 & Hu1).
    exact (IH _ _ _ _ _ Hrest Hw1 Hu1).
Qed.

(** A run that is under way can be taken to its end by its own steps
    alone, and then emits exactly what it had left. *)
Lemma run_to_end n : forall sys i w,
  workers sys !! i = Some w ->
  under_way w ->
  length (w_ops w) = n ->
  exists (sys' : system) (tr : list event) (w' : worker),
    run (replicate n (Worker_step i)) sys = Some (sys', tr) /\
    emitted_by i tr = emits_of (w_ops w) /\
    workers sys' !! i = Some w' /\
    w_ops w' = [].
Proof.
  induction n as [|n IH]; intros sys i w Hw Hu Hn.
  - destruct (w_ops w) eqn:Hops; [|discriminate Hn].
    exists sys, [], w. rewrite Hops. repeat split; auto.
  - destruct w as [st [|op rest]]; [discriminate Hn|].
    destruct Hu as (Hend & Hq & Hrun). cbn [w_ops w_status] in *.
    rewrite (Hrun ltac:(discriminate)) in Hw.
    destruct (own_step _ _ _ _ Hw Hend)
      as (sys1 & ev1 & w1 & Hs1 & Hw1 & Hops1 & Hu1 & Hem1).
    destruct (IH sys1 i w1 Hw1 Hu1) as (sys2 & tr2 & w2 & Hr2 & Hem2 & Hw2 & Hops2).
    { rewrite Hops1. simpl in Hn. lia. }
    exists sys2, (ev1 :: tr2), w2.
    split.
    { cbn [replicate run]. rewrite Hs1, Hr2. reflexivity. }
    split; [|auto].
    rewrite emitted_by_cons, Hem1, Hem2, Hops1.
    cbn [w_ops]. destruct op; reflexivity.
Qed.

(** C5, as the code has it. Starting a routine supersedes nothing. A run
    has no cancellation flag: the start leaves an earlier run, [k]
    operations into its routine, exactly as it was. Along any schedule
    that follows, what the earlier run has emitted and what it has left
    make up what it had left at the start, in order; as long as it has
    operations left it is still running and its next step is possible;
    and from wherever the schedule stops, its own steps take it to its
    end, emitting every remaining event. *)
Theorem start_leaves_runs_alone (r r0 : routine) (k : nat) (sys : system)
    (i : nat) (w : worker) :
  workers sys !! i = Some w ->
  w_status w = Running ->
  w_ops w = drop k (Worker_run (executefn r0)) ->
  workers (runfunction r sys) !! i = Some w /\
  (forall (sched : list label) (sys' : system) (tr : list event),
     run sched (runfunction r sys) = Some (sys', tr) ->
     exists w' : worker,
       workers sys' !! i = Some w' /\
       emitted_by i tr ++ emits_of (w_ops w') = emits_of (w_ops w) /\
       (w_ops w' <> [] ->
        w_status w' = Running /\
        exists (sys1 : system) (ev : event),
          step (Worker_step i) sys' = Some (sys1, ev)) /\
       exists (sys'' : system) (tr' : list event) (w'' : worker),
         run (replicate (length (w_ops w')) (Worker_step i)) sys'
           = Some (sys'', tr') /\
         emitted_by i tr' = emits_of (w_ops w') /\
         workers sys'' !! i = Some w'' /\
         w_ops w'' = []).
Proof.
  intros Hw Hst Hops.
  assert (Hw' : workers (runfunction r sys) !! i = Some w).
  { rewrite runfunction_workers. apply lookup_app_l_Some, Hw. }
  assert (Hu : under_way w).
  { split; [|split].
    - rewrite Hops. apply well_ended_drop, well_ended_run.
    - rewrite Hst. discriminate.
    - intros _. exact Hst. }
  split; [exact Hw'|].
  intros sched sys' tr Hrun.
  destruct (run_keeps_run _ _ _ _ _ _ Hrun Hw') as (w1 & Hw1 & Hem).
  destruct (run_under_way _ _ _ _ _ _ Hrun Hw' Hu) as (w2 & Hw2 & Hu2).
  rewrite Hw1 in Hw2. injection Hw2 as <-.
  exists w1. split; [exact Hw1|]. split; [exact Hem|]. split.
  - intros Hne. pose proof Hu2 as (Hend & _ & Hrun1).
    split; [exact (Hrun1 Hne)|].
    destruct w1 as [st [|op rest]]; [contradiction|].
    cbn [w_ops w_status] in *. rewrite (Hrun1 Hne) in Hw1.
    destruct (own_step _ _ _ _ Hw1 Hend) as (sys1 & ev1 & _ & Hs1 & _).
    eauto.
  - exact (run_to_end _ _ _ _ Hw1 Hu2 eq_refl).
Qed.

Lemma start_leaves_runs_alone_witness :
  workers (runfunction R2 (runfunction R1 (system0 2))) !! 0
  = Some (mkWorker Running (Worker_run executefn1)).
Proof.
  destruct (start_leaves_runs_alone R2 R1 0 (runfunction R1 (system0 2)) 0
              (mkWorker Running (Worker_run executefn1)))
    as (H & _); [reflexivity|reflexivity|reflexivity|exact H].
Defined.

(** ** The output bank, further *)

Lemma with_k_self s : with_k (self_k s) s = s.
Proof. destruct s; reflexivity. Qed.

Lemma setButtonsState_setAll s : setButtonsState s = setAll (self_k s) s.
Proof.
  unfold setAll, writeInputCommand. unfold bind at 1, modify at 1.
  rewrite with_k_self. reflexivity.
Qed.

Lemma is_bits24_true bits :
  is_bits24 bits = true ->
  String.length bits = 24 /\ forallb is_bit (list_ascii_of_string bits) = true.
Proof.
  unfold is_bits24. intros H. apply andb_prop in H. destruct H as [H1 H2].
  apply Nat.eqb_eq in H1. auto.
Qed.

(** What a valid entry leaves. *)
Lemma setAll_bits_eq bits s :
  wf_buttons s -> is_bits24 bits = true ->
  setAll bits s =
  (with_b4 "OK"
     (with_coils
        (client_coils s ++ coil_writes (map truthy (list_ascii_of_string bits)))
        (with_b4 "OK"
           (with_displayBin bits
              (with_buttons
                 (zip (map fst (self_buttons s))
                      (map truthy (list_ascii_of_string bits)))
                 (with_k bits s))))), Ok tt).
Proof.
  intros Hwf Hb. apply is_bits24_true in Hb. destruct Hb as [Hlen Hbits].
  assert (Hl : length (list_ascii_of_string bits)
               = length (map fst (self_buttons s))).
  { rewrite length_map, length_chars, Hlen.
    symmetry. apply wf_buttons_length, Hwf. }
  rewrite (setAll_24_eq _ _ Hwf Hlen), loop_spec_digits.
  2:{ apply forallb_bit_digit, Hbits. }
  2:{ rewrite length_map in Hl. symmetry. exact Hl. }
  rewrite binstring_of_zip, string_of_list_ascii_of_string by auto.
  rewrite snd_zip by (rewrite length_map; lia).
  reflexivity.
Qed.

Lemma setAll_bits_string bits s :
  wf_buttons s -> is_bits24 bits = true ->
  currentBinaryString (fst (setAll bits s)) = bits.
Proof.
  intros Hwf Hb. rewrite (setAll_bits_eq _ _ Hwf Hb).
  apply is_bits24_true in Hb. destruct Hb as [Hlen Hbits].
  unfold currentBinaryString. cbn [fst self_buttons with_b4 with_coils
    with_displayBin with_buttons].
  rewrite binstring_of_zip, string_of_list_ascii_of_string; auto.
  rewrite length_map, length_chars, Hlen.
  symmetry. apply wf_buttons_length, Hwf.
Qed.

(** X1. [getButtonsState] only reads the buttons: whatever their state it
    returns normally, leaves them and the input field as they are, shows
    their string, sets the status to "OK" and writes one coil per button,
    in index order, with the button's state. *)
Theorem getButtonsState_reads_only (s : state) :
  snd (getButtonsState s) = Ok tt /\
  self_buttons (fst (getButtonsState s)) = self_buttons s /\
  self_k (fst (getButtonsState s)) = self_k s /\
  self_displayBin (fst (getButtonsState s)) = currentBinaryString s /\
  self_b4 (fst (getButtonsState s)) = "OK" /\
  client_coils (fst (getButtonsState s)) =
    client_coils s ++ zip (seq 0 (length (self_buttons s)))
                          (map snd (self_buttons s)).
Proof.
  rewrite getButtonsState_spec. unfold coil_writes. rewrite length_map.
  repeat split.
Qed.

Lemma toggle_notin k l : k ∉ map fst l -> toggle k l = l.
Proof.
  induction l as [|[k' c] l IH]; simpl; intros Hk; [reflexivity|].
  rewrite not_elem_of_cons in Hk. destruct Hk as [Hne Hk].
  destruct (String.eqb_spec k' k); [congruence|]. f_equal; auto.
Qed.

Lemma toggle_lookup l : forall i k b,
  NoDup (map fst l) -> l !! i = Some (k, b) ->
  toggle k l = <[i := (k, negb b)]> l.
Proof.
  induction l as [|[k' c] l IH]; intros i k b Hnd Hi; [discriminate|].
  simpl in Hnd. apply NoDup_cons in Hnd. destruct Hnd as [Hk' Hnd].
  destruct i as [|i]; simpl in Hi.
  - injection Hi as -> ->. simpl. rewrite String.eqb_refl.
    f_equal. apply toggle_notin, Hk'.
  - simpl. destruct (String.eqb_spec k' k) as [->|Hne].
    + exfalso. apply Hk'. apply list_elem_of_fmap.
      exists (k, b). split; [reflexivity|].
      apply list_elem_of_lookup. eauto.
    + f_equal. eapply IH; eauto.
Qed.

Lemma toggle_twice k l : toggle k (toggle k l) = l.
Proof.
  induction l as [|[k' c] l IH]; simpl; [reflexivity|].
  destruct (String.eqb_spec k' k) as [->|Hne]; simpl.
  - rewrite String.eqb_refl, negb_involutive. f_equal. exact IH.
  - destruct (String.eqb_spec k' k); [contradiction|]. f_equal. exact IH.
Qed.

Lemma click_button_eq k s :
  click_button k s =
  getButtonsState (with_buttons (toggle k (self_buttons s)) s).
Proof. reflexivity. Qed.

(** X2. A click on the button at position [i] of the grid flips that
    button and no other; the display then shows the new string and all
    the coils are written again, coil [i] with the new state. *)
Theorem click_button_flips_one (s : state) (i : nat) (k : string) (b : bool) :
  NoDup (map fst (self_buttons s)) ->
  self_buttons s !! i = Some (k, b) ->
  snd (click_button k s) = Ok tt /\
  self_buttons (fst (click_button k s))
    = <[i := (k, negb b)]> (self_buttons s) /\
  self_displayBin (fst (click_button k s))
    = currentBinaryString (fst (click_button k s)) /\
  client_coils (fst (click_button k s))
    = client_coils s
      ++ zip (seq 0 (length (self_buttons s)))
             (<[i := negb b]> (map snd (self_buttons s))).
Proof.
  intros Hnd Hi. rewrite click_button_eq, getButtonsState_spec.
  unfold currentBinaryString, coil_writes.
  cbn [fst snd self_buttons self_displayBin client_coils
       with_coils with_b4 with_displayBin with_buttons].
  rewrite (toggle_lookup _ _ _ _ Hnd Hi).
  rewrite length_map, length_insert.
  change (map snd (<[i:=(k, negb b)]> (self_buttons s)))
    with (snd <$> <[i:=(k, negb b)]> (self_buttons s)).
  rewrite list_fmap_insert. repeat split.
Qed.

Lemma click_button_flips_one_witness :
  currentBinaryString (fst (click_button "3" window0))
  = "001000000000000000000000".
Proof.
  destruct (click_button_flips_one window0 2 "3" false)
    as (_ & H & _); [|reflexivity|].
  - apply wf_buttons_NoDup. reflexivity.
  - unfold currentBinaryString. rewrite H. reflexivity.
Defined.

(** X3. Two clicks on the same button bring the buttons and the display
    back to where they were. *)
Theorem click_button_twice (s : state) (k : string) :
  self_buttons (fst (click_button k (fst (click_button k s))))
    = self_buttons s /\
  self_displayBin (fst (click_button k (fst (click_button k s))))
    = currentBinaryString s.
Proof.
  rewrite !click_button_eq, !getButtonsState_spec.
  unfold currentBinaryString.
  cbn [fst self_buttons self_displayBin
       with_coils with_b4 with_displayBin with_buttons].
  rewrite toggle_twice. split; reflexivity.
Qed.

(** X4. The last valid entry wins: whatever was entered before, valid or
    not, a valid entry leaves exactly its own string on the buttons. *)
Theorem setAll_last_write_wins (s : state) (earlier bits : string) :
  wf_buttons s ->
  is_bits24 bits = true ->
  snd (setAll bits (fst (setAll earlier s))) = Ok tt /\
  currentBinaryString (fst (setAll bits (fst (setAll earlier s)))) = bits.
Proof.
  intros Hwf Hb.
  pose proof (wf_buttons_setAll earlier s Hwf) as Hwf'.
  split.
  - rewrite (setAll_bits_eq _ _ Hwf' Hb). reflexivity.
  - apply setAll_bits_string; assumption.
Qed.

Lemma setAll_last_write_wins_witness :
  currentBinaryString
    (fst (setAll "111100001111000011110000"
            (fst (setAll "12x" window0))))
  = "111100001111000011110000".
Proof.
  destruct (setAll_last_write_wins window0 "12x" "111100001111000011110000")
    as (_ & H); [reflexivity|reflexivity|exact H].
Defined.

(** X5. After an entry of the wrong length the input field holds preset
    A, so a further press on "Set state" applies preset A: the outputs
    that were on before the bad entry go off. *)
Theorem set_state_after_rejection (s : state) (bad : string) :
  wf_buttons s ->
  String.length bad <> 24 ->
  is_bits24 (self_A s) = true ->
  snd (setButtonsState (fst (setAll bad s))) = Ok tt /\
  currentBinaryString (fst (setButtonsState (fst (setAll bad s))))
    = self_A s /\
  self_b4 (fst (setButtonsState (fst (setAll bad s)))) = "OK".
Proof.
  intros Hwf Hbad HA.
  rewrite setButtonsState_setAll, (setAll_wrong_length_eq _ _ Hbad).
  cbn [fst self_k with_k with_b4].
  assert (Hwf' : wf_buttons
            (with_k (self_A s)
               (with_b4 "Error! Require 24-bit binary input" (with_k bad s))))
    by exact Hwf.
  split; [|split].
  - rewrite (setAll_bits_eq _ _ Hwf' HA). reflexivity.
  - apply setAll_bits_string; assumption.
  - rewrite (setAll_bits_eq _ _ Hwf' HA). reflexivity.
Qed.

Lemma set_state_after_rejection_witness :
  let s := fst (setAll "111111111111111111111111" window0) in
  currentBinaryString s = "111111111111111111111111" /\
  currentBinaryString (fst (setButtonsState (fst (setAll "101" s))))
    = "000000000000000000000000".
Proof.
  intros s. split; [reflexivity|].
  destruct (set_state_after_rejection s "101")
    as (_ & H & _); [reflexivity|simpl; lia|reflexivity|exact H].
Defined.

(** ** What the slots keep *)

Lemma config_kept_refl s : config_kept s s.
Proof. repeat split. Qed.

Lemma config_kept_trans s1 s2 s3 :
  config_kept s1 s2 -> config_kept s2 s3 -> config_kept s1 s3.
Proof.
  unfold config_kept. intros (A1 & B1 & C1 & D1 & K1 & M1)
    (A2 & B2 & C2 & D2 & K2 & M2).
  repeat split; congruence.
Qed.

Lemma keeps_ret {X} (x : X) : keeps (ret x).
Proof. intros s. apply config_kept_refl. Qed.

Lemma keeps_raise {X} (e : exn) : keeps (@raise X e).
Proof. intros s. apply config_kept_refl. Qed.

Lemma keeps_lift {X} (r : result X) : keeps (lift r).
Proof. intros s. apply config_kept_refl. Qed.

Lemma keeps_gets {X} (f : state -> X) : keeps (gets f).
Proof. intros s. apply config_kept_refl. Qed.

Lemma keeps_modify (f : state -> state) :
  (forall s, config_kept s (f s)) -> keeps (modify f).
Proof. intros H s. apply H. Qed.

Lemma keeps_bind {X Y} (m : M X) (f : X -> M Y) :
  keeps m -> (forall x, keeps (f x)) -> keeps (bind m f).
Proof.
  intros Hm Hf s. unfold bind. specialize (Hm s).
  destruct (m s) as [s' [x|e]]; cbn [fst] in *; [|exact Hm].
  eapply config_kept_trans; [exact Hm|apply Hf].
Qed.

Lemma keeps_for_each {X} (xs : list X) (body : X -> M unit) :
  (forall x, keeps (body x)) -> keeps (for_each xs body).
Proof.
  intros Hb. induction xs as [|x xs IH]; simpl.
  - apply keeps_ret.
  - apply keeps_bind; [apply Hb|intros _; exact IH].
Qed.

Lemma map_fst_setChecked k v l : map fst (setChecked k v l) = map fst l.
Proof.
  unfold setChecked. rewrite map_map. apply map_ext.
  intros [k' c]. simpl. destruct (String.eqb k' k); reflexivity.
Qed.

Lemma map_fst_toggle k l : map fst (toggle k l) = map fst l.
Proof.
  unfold toggle. rewrite map_map. apply map_ext.
  intros [k' c]. simpl. destruct (String.eqb k' k); reflexivity.
Qed.

Lemma keeps_getButtonsState : keeps getButtonsState.
Proof. intros s. rewrite getButtonsState_spec. repeat split. Qed.

Lemma keeps_setButtonsState_loop keys inputs : forall j,
  keeps (setButtonsState_loop keys inputs j).
Proof.
  induction keys as [|k keys IH]; intros j; simpl.
  - apply keeps_ret.
  - apply keeps_bind; [apply keeps_lift|intros c].
    apply keeps_bind; [apply keeps_lift|intros n].
    apply keeps_bind; [|intros _; apply IH].
    apply keeps_modify. intros s. repeat split.
    cbn [self_buttons with_buttons]. apply map_fst_setChecked.
Qed.

Lemma keeps_setButtonsState : keeps setButtonsState.
Proof.
  unfold setButtonsState. apply keeps_bind; [apply keeps_gets|intros inputs].
  destruct (negb _).
  - apply keeps_bind; [apply keeps_modify; intros s; repeat split|intros _].
    apply keeps_bind; [apply keeps_gets|intros a].
    apply keeps_modify; intros s; repeat split.
  - apply keeps_bind; [apply keeps_gets|intros keys].
    apply keeps_bind; [apply keeps_setButtonsState_loop|intros _].
    apply keeps_bind; [apply keeps_getButtonsState|intros _].
    apply keeps_modify; intros s; repeat split.
Qed.

Lemma keeps_writeInputCommand inputs : keeps (writeInputCommand inputs).
Proof.
  destruct inputs; simpl; [|apply keeps_raise].
  apply keeps_modify; intros s0; repeat split.
Qed.

Lemma keeps_action o : keeps (action o).
Proof.
  unfold action.
  repeat match goal with
         | |- keeps (if ?c then _ else _) => destruct c
         end;
    try apply keeps_ret;
    (apply keeps_bind; [apply keeps_modify; intros s; repeat split|intros _];
     apply keeps_bind; [|intros _; apply keeps_setButtonsState];
     apply keeps_bind; [apply keeps_gets|intros x];
     apply keeps_writeInputCommand).
Qed.

Lemma keeps_click_button k : keeps (click_button k).
Proof.
  unfold click_button.
  apply keeps_bind; [|intros _; apply keeps_getButtonsState].
  apply keeps_modify. intros s. repeat split.
  cbn [self_buttons with_buttons]. apply map_fst_toggle.
Qed.

Section KeepsStage.

Variable pyfloat : string -> option float.

Lemma keeps_float_of_text w : keeps (float_of_text pyfloat w).
Proof.
  destruct w; simpl; [apply keeps_raise|].
  destruct (pyfloat text); [apply keeps_ret|apply keeps_raise].
Qed.

Lemma keeps_move INPUT : keeps (move pyfloat INPUT).
Proof.
  unfold move. apply keeps_bind.
  - repeat match goal with
           | |- keeps (if ?c then _ else _) => destruct c
           end;
      try apply keeps_ret;
      (apply keeps_bind; [apply keeps_gets|intros w];
       apply keeps_bind; [apply keeps_float_of_text|intros d];
       apply keeps_ret).
  - intros bound. apply keeps_bind; [apply keeps_gets|intros v].
    apply keeps_bind; [apply keeps_float_of_text|intros velocity].
    destruct bound as [[axis distance]|]; [|apply keeps_raise].
    apply keeps_bind; [|intros _]; apply keeps_modify; intros s; repeat split.
Qed.

Lemma keeps_getMCLButtonsState : keeps (getMCLButtonsState pyfloat).
Proof.
  unfold getMCLButtonsState.
  apply keeps_bind; [apply keeps_gets|intros binstring].
  apply keeps_bind; [apply keeps_modify; intros s; repeat split|intros _].
  apply keeps_bind; [apply keeps_move|intros _].
  apply keeps_raise.
Qed.

Lemma keeps_click_MCL k : keeps (click_MCL pyfloat k).
Proof.
  unfold click_MCL.
  apply keeps_bind; [|intros _; apply keeps_getMCLButtonsState].
  apply keeps_modify. intros s. repeat split.
  cbn [self_MCLbuttons with_MCLbuttons]. apply (map_fst_toggle k).
Qed.

Lemma configured_kept s s' :
  configured s -> config_kept s s' -> configured s'.
Proof.
  unfold configured, config_kept, wf_buttons.
  intros (W & A & B & C & [t D] & K) (A' & B' & C' & D' & W' & K').
  repeat split; try congruence. exists t. congruence.
Qed.

Lemma configured_run_op op s :
  configured s -> configured (fst (run_op pyfloat op s)).
Proof.
  intros Hc.
  destruct op; cbn [run_op];
    try (apply (configured_kept s); [exact Hc|];
         first [ apply keeps_setButtonsState
               | apply keeps_click_button
               | apply keeps_click_MCL
               | apply keeps_action
               | apply keeps_bind;
                 [apply keeps_bind;
                  [apply keeps_gets|intros x; apply keeps_writeInputCommand]
                 |intros _; apply keeps_setButtonsState]
               | repeat split ]; fail).
  unfold modify. cbn [fst].
  destruct Hc as (W & A & B & C & [t D] & K). rewrite D.
  split; [exact W|]. split; [exact A|]. split; [exact B|].
  split; [exact C|]. split; [exists text; reflexivity|exact K].
Qed.

Lemma configured_window0 : configured window0.
Proof.
  repeat split. exists "50". reflexivity.
Qed.

Lemma configured_after (ops : list user_op) :
  configured (after pyfloat ops window0).
Proof.
  unfold after. generalize configured_window0. generalize window0.
  induction ops as [|op ops IH]; intros s Hs; simpl; [exact Hs|].
  apply IH. apply configured_run_op, Hs.
Qed.

(** X6. From the window [__init__] builds, no sequence of operations
    (entries, presses, clicks on either grid, edits of the distance and
    velocity fields, events of routines) changes the presets A, B, C or
    the keys of the two button dicts, and [self.D] stays the distance
    field. *)
Theorem operations_keep_configuration (ops : list user_op) :
  let s := after pyfloat ops window0 in
  map fst (self_buttons s) = map fst buttons /\
  self_A s = "000000000000000000000000" /\
  self_B s = "111111111111111111111111" /\
  self_C s = "101010101010101010101010" /\
  (exists text : string, self_D s = PLineEdit text) /\
  map fst (self_MCLbuttons s) = ["-X"; "+Y"; "-Y"; "+X"].
Proof. exact (configured_after ops). Qed.

End KeepsStage.

(** ** The dispatcher, further *)

Lemma action_preset_eq l p s :
  preset_of l s = Some p ->
  action (PyStr l) s = setAll p (with_bc l s).
Proof.
  unfold preset_of, action. cbn [py_eq_str].
  destruct (String.eqb_spec l "A") as [->|_]; [intros [= <-]; reflexivity|].
  destruct (String.eqb_spec l "B") as [->|_]; [intros [= <-]; reflexivity|].
  destruct (String.eqb_spec l "C") as [->|_]; [intros [= <-]; reflexivity|].
  discriminate.
Qed.

(** X7. For the labels A, B and C, [action] applies the string held by
    the attribute of that name: when it is a valid 24-bit string, the
    slot returns normally, the buttons, the display and the input field
    hold that string, the command label shows the label, the status is
    "OK" and the 24 coils are written in index order. *)
Theorem action_applies_preset (l p : string) (s : state) :
  preset_of l s = Some p ->
  wf_buttons s ->
  is_bits24 p = true ->
  snd (action (PyStr l) s) = Ok tt /\
  currentBinaryString (fst (action (PyStr l) s)) = p /\
  self_displayBin (fst (action (PyStr l) s)) = p /\
  self_k (fst (action (PyStr l) s)) = p /\
  self_bc (fst (action (PyStr l) s)) = l /\
  self_b4 (fst (action (PyStr l) s)) = "OK" /\
  client_coils (fst (action (PyStr l) s)) =
    client_coils s ++ coil_writes (map truthy (list_ascii_of_string p)).
Proof.
  intros Hp Hwf Hb. rewrite (action_preset_eq _ _ _ Hp).
  assert (Hwf' : wf_buttons (with_bc l s)) by exact Hwf.
  split; [rewrite (setAll_bits_eq _ _ Hwf' Hb); reflexivity|].
  split; [apply setAll_bits_string; assumption|].
  rewrite (setAll_bits_eq _ _ Hwf' Hb). repeat split.
Qed.

Lemma action_applies_preset_witness :
  currentBinaryString (fst (action (PyStr "C") window0))
  = "101010101010101010101010".
Proof.
  destruct (action_applies_preset "C" "101010101010101010101010" window0)
    as (_ & H & _); [reflexivity|reflexivity|reflexivity|exact H].
Defined.

Lemma action_D_eq s text :
  self_D s = PLineEdit text ->
  action (PyStr "D") s = (with_bc "D" s, Raise TypeError).
Proof.
  intros HD. unfold action. cbn [py_eq_str String.eqb Ascii.eqb Bool.eqb].
  unfold bind, modify, gets. cbn [self_D with_bc]. rewrite HD. reflexivity.
Qed.

Section Reachable.

Variable pyfloat : string -> option float.

(** X8. In every state the window can reach, the events A, B and C put
    the outputs all off, all on and alternating, while the event D, whose
    attribute has become the distance field, makes [action] raise
    [TypeError] after showing "D": the input field, the buttons and the
    coils are not touched, so preset D is never applied. *)
Theorem events_in_reachable_states (ops : list user_op) :
  let s := after pyfloat ops window0 in
  currentBinaryString (fst (action (PyStr "A") s))
    = "000000000000000000000000" /\
  currentBinaryString (fst (action (PyStr "B") s))
    = "111111111111111111111111" /\
  currentBinaryString (fst (action (PyStr "C") s))
    = "101010101010101010101010" /\
  action (PyStr "D") s = (with_bc "D" s, Raise TypeError).
Proof.
  intros s.
  destruct (configured_after pyfloat ops)
    as (W & A & B & C & [t D] & K).
  fold s in W, A, B, C, D, K.
  split; [|split; [|split]].
  - rewrite (action_preset_eq "A" _ s eq_refl), A.
    apply setAll_bits_string; [exact W|reflexivity].
  - rewrite (action_preset_eq "B" _ s eq_refl), B.
    apply setAll_bits_string; [exact W|reflexivity].
  - rewrite (action_preset_eq "C" _ s eq_refl), C.
    apply setAll_bits_string; [exact W|reflexivity].
  - exact (action_D_eq s t D).
Qed.

End Reachable.

(** ** The stage mover, further *)

Lemma is_direction_true INPUT :
  is_direction INPUT = true <->
  INPUT = "1000" \/ INPUT = "0001" \/ INPUT = "0100" \/ INPUT = "0010".
Proof.
  unfold is_direction. rewrite !orb_true_iff, !String.eqb_eq. tauto.
Qed.

Lemma resetMCL_loop keys : forall s,
  for_each keys (fun btnText =>
    modify (fun s =>
      with_MCLbuttons (setChecked btnText false (self_MCLbuttons s)) s)) s
  = (with_MCLbuttons
       (map (fun b => if existsb (String.eqb (fst b)) keys
                      then (fst b, false) else b) (self_MCLbuttons s)) s,
     Ok tt).
Proof.
  induction keys as [|k keys IH]; intros s.
  - simpl. unfold ret. f_equal. rewrite map_id. destruct s; reflexivity.
  - cbn [for_each]. unfold bind at 1, modify at 1. rewrite IH.
    f_equal.
    match goal with
    | |- with_MCLbuttons ?a _ = _ =>
        transitivity (with_MCLbuttons a s); [reflexivity|]
    end.
    cbn [self_MCLbuttons with_MCLbuttons]. f_equal.
    unfold setChecked. rewrite map_map. apply map_ext. intros [k' c].
    cbn [fst existsb]. destruct (String.eqb k' k) eqn:Hk; cbn [fst orb].
    + destruct (existsb _ keys); reflexivity.
    + reflexivity.
Qed.

Lemma existsb_own_key (l : list (string * bool)) b :
  b ∈ l -> existsb (String.eqb (fst b)) (map fst l) = true.
Proof.
  intros Hin. apply existsb_exists. exists (fst b). split.
  - apply in_map. apply list_elem_of_In, Hin.
  - apply String.eqb_refl.
Qed.

Lemma resetMCLButtonsState_eq s :
  resetMCLButtonsState s =
  (with_MCLbuttons (map (fun b => (fst b, false)) (self_MCLbuttons s)) s,
   Ok tt).
Proof.
  unfold resetMCLButtonsState. unfold bind at 1, gets at 1.
  rewrite resetMCL_loop. f_equal. f_equal.
  apply map_ext_in. intros b Hin.
  rewrite existsb_own_key; [reflexivity|apply list_elem_of_In, Hin].
Qed.

(** X9. [resetMCLButtonsState] never fails and unchecks every direction
    button, keeping the dict's keys and order; the pattern read
    afterwards is all '0', and nothing is sent to the stage. *)
Theorem resetMCLButtonsState_unchecks_all (s : state) :
  snd (resetMCLButtonsState s) = Ok tt /\
  self_MCLbuttons (fst (resetMCLButtonsState s))
    = map (fun b => (fst b, false)) (self_MCLbuttons s) /\
  binstring_of (self_MCLbuttons (fst (resetMCLButtonsState s)))
    = string_of_list_ascii
        (replicate (length (self_MCLbuttons s)) "0"%char) /\
  stage_moves (fst (resetMCLButtonsState s)) = stage_moves s.
Proof.
  rewrite resetMCLButtonsState_eq.
  cbn [fst snd self_MCLbuttons stage_moves with_MCLbuttons].
  repeat split. rewrite binstring_of_bits, map_map. f_equal.
  induction (self_MCLbuttons s) as [|b l IH]; simpl; [reflexivity|].
  f_equal. exact IH.
Qed.

Section StageFurther.

Variable pyfloat : string -> option float.

(** A move that fails has changed nothing. *)
Lemma move_raises INPUT s e :
  snd (move pyfloat INPUT s) = Raise e -> fst (move pyfloat INPUT s) = s.
Proof.
  unfold move, float_of_text, bind, gets, ret, raise,
    mcl_move, print, modify.
  repeat match goal with
         | |- context [String.eqb ?a ?b] => destruct (String.eqb a b)
         | |- context [self_D s] => destruct (self_D s)
         | |- context [pyfloat ?t] => destruct (pyfloat t)
         end; cbn [fst snd]; intros H; try discriminate H; reflexivity.
Qed.

Lemma move_dispatches s dt d v :
  self_D s = PLineEdit dt -> pyfloat dt = Some d ->
  pyfloat (self_V s) = Some v ->
  move pyfloat "1000" s
    = (dispatched 1 v (d * (1 / 1000))%float s, Ok tt) /\
  move pyfloat "0001" s
    = (dispatched 1 v (- d * (1 / 1000))%float s, Ok tt) /\
  move pyfloat "0100" s
    = (dispatched 2 v (- d * (1 / 1000))%float s, Ok tt) /\
  move pyfloat "0010" s
    = (dispatched 2 v (d * (1 / 1000))%float s, Ok tt).
Proof.
  intros HD Hd Hv.
  unfold move, dispatched, float_of_text, bind, gets, ret,
    mcl_move, print, modify.
  cbn [String.eqb Ascii.eqb Bool.eqb]. rewrite HD, Hd, Hv.
  repeat split; reflexivity.
Qed.

(** X10. With [self.D] the distance field, [move] returns normally exactly
    when the input is one of the four patterns and both the distance and
    the velocity text read as floats; it then has sent one command. In
    every other case it raises, having sent nothing and changed nothing:
    [ValueError] for an unreadable distance (read first, and only for
    the four patterns) or velocity, [UnboundLocalError] otherwise. *)
Theorem move_returns_iff (INPUT : string) (s : state) (dt : string) :
  self_D s = PLineEdit dt ->
  (snd (move pyfloat INPUT s) = Ok tt <->
   is_direction INPUT = true /\
   (exists d, pyfloat dt = Some d) /\
   (exists v, pyfloat (self_V s) = Some v)) /\
  (snd (move pyfloat INPUT s) = Ok tt ->
   length (stage_moves (fst (move pyfloat INPUT s)))
     = S (length (stage_moves s))) /\
  (snd (move pyfloat INPUT s) <> Ok tt ->
   fst (move pyfloat INPUT s) = s /\
   snd (move pyfloat INPUT s) =
     Raise (if is_direction INPUT
            then ValueError
            else match pyfloat (self_V s) with
                 | Some _ => UnboundLocalError
                 | None => ValueError
                 end)).
Proof.
  intros HD. unfold is_direction.
  unfold move, float_of_text, bind, gets, ret, raise,
    mcl_move, print, modify.
  destruct (String.eqb INPUT "1000"), (String.eqb INPUT "0001"),
    (String.eqb INPUT "0100"), (String.eqb INPUT "0010");
    cbv beta iota; rewrite ?HD; cbv beta iota;
    destruct (pyfloat dt) as [d|]; cbv beta iota;
    destruct (pyfloat (self_V s)) as [v|]; cbv beta iota;
    cbn [fst snd orb stage_moves with_stdout with_moves];
    (split; [split; [intros H; try discriminate H; eauto
                    |intros (H1 & [d' H2] & [v' H3]); 
                     try discriminate; reflexivity]|]);
    (split; [intros H; try discriminate H; rewrite length_app; simpl; lia
            |intros H; try (exfalso; apply H; reflexivity); split; reflexivity]).
Qed.

Lemma getMCLButtonsState_eq s :
  getMCLButtonsState pyfloat s =
  match move pyfloat (binstring_of (self_MCLbuttons s))
          (with_MCL (binstring_of (self_MCLbuttons s)) s) with
  | (s1, Ok _) => (s1, Raise AttributeError)
  | (s1, Raise e) => (s1, Raise e)
  end.
Proof.
  unfold getMCLButtonsState.
  unfold bind at 1, gets at 1. unfold bind at 1, modify at 1.
  unfold bind at 1.
  destruct (move pyfloat _ _) as [s1 [[]|e]]; reflexivity.
Qed.

(** X11. [getMCLButtonsState] never returns normally: it ends with the
    exception of [move] or, after a move, with [AttributeError]. In
    every case the direction field shows the pattern read, the direction
    buttons are left as they were, and at most one command has been
    sent. *)
Theorem getMCLButtonsState_always_raises (s : state) :
  (exists e : exn, snd (getMCLButtonsState pyfloat s) = Raise e) /\
  self_MCL (fst (getMCLButtonsState pyfloat s))
    = binstring_of (self_MCLbuttons s) /\
  self_MCLbuttons (fst (getMCLButtonsState pyfloat s))
    = self_MCLbuttons s /\
  (stage_moves (fst (getMCLButtonsState pyfloat s)) = stage_moves s \/
   exists m, stage_moves (fst (getMCLButtonsState pyfloat s))
             = stage_moves s ++ [m]).
Proof.
  rewrite getMCLButtonsState_eq.
  destruct (move pyfloat (binstring_of (self_MCLbuttons s))
              (with_MCL (binstring_of (self_MCLbuttons s)) s))
    as [s1 [[]|e]] eqn:Hmove.
  - destruct (move_returns _ _ _ _ Hmove) as (axis & v & d & ->).
    cbn. repeat split; eauto.
  - pose proof (move_raises _ _ e ltac:(rewrite Hmove; reflexivity)) as Hs.
    rewrite Hmove in Hs. cbn [fst] in Hs. subst s1.
    cbn. repeat split; eauto.
Qed.

(** X12. The first click after the buttons were reset sends the move that
    the comment in [move] gives for the button: "-X" moves axis 1 by
    [+d*(1/1000)], "+X" axis 1 by [-d*(1/1000)], "-Y" axis 2 by
    [+d*(1/1000)], "+Y" axis 2 by [-d*(1/1000)], at velocity [v], where
    [d] and [v] are the floats read in the two fields. *)
Theorem first_click_moves (s : state) (dt : string) (d v : float) :
  map fst (self_MCLbuttons s) = ["-X"; "+Y"; "-Y"; "+X"] ->
  self_D s = PLineEdit dt ->
  pyfloat dt = Some d ->
  pyfloat (self_V s) = Some v ->
  let s0 := fst (resetMCLButtonsState s) in
  stage_moves (fst (click_MCL pyfloat "-X" s0))
    = stage_moves s ++ [(1%Z, v, (d * (1 / 1000))%float)] /\
  stage_moves (fst (click_MCL pyfloat "+X" s0))
    = stage_moves s ++ [(1%Z, v, (- d * (1 / 1000))%float)] /\
  stage_moves (fst (click_MCL pyfloat "-Y" s0))
    = stage_moves s ++ [(2%Z, v, (d * (1 / 1000))%float)] /\
  stage_moves (fst (click_MCL pyfloat "+Y" s0))
    = stage_moves s ++ [(2%Z, v, (- d * (1 / 1000))%float)].
Proof.
  intros HK HD Hd Hv s0. subst s0. rewrite resetMCLButtonsState_eq.
  cbn [fst].
  destruct (self_MCLbuttons s) as [|[k1 b1] [|[k2 b2] [|[k3 b3]
    [|[k4 b4] [|? ?]]]]] eqn:Hb; try discriminate HK.
  injection HK as -> -> -> ->.
  pose (mk := fun pat : string =>
    with_MCL pat
      (with_MCLbuttons
         [("-X", Ascii.eqb (nth 0 (list_ascii_of_string pat) "0"%char) "1");
          ("+Y", Ascii.eqb (nth 1 (list_ascii_of_string pat) "0"%char) "1");
          ("-Y", Ascii.eqb (nth 2 (list_ascii_of_string pat) "0"%char) "1");
          ("+X", Ascii.eqb (nth 3 (list_ascii_of_string pat) "0"%char) "1")]
         (with_MCLbuttons
            [("-X", false); ("+Y", false); ("-Y", false); ("+X", false)] s))).
  assert (Hgo : forall pat axis dist,
            move pyfloat pat (mk pat) = (dispatched axis v dist (mk pat), Ok tt) ->
            stage_moves
              (fst (bind (move pyfloat pat) (fun _ => call_self "resetButtonsState")
                      (mk pat)))
            = stage_moves s ++ [(axis, v, dist)]).
  { intros pat axis dist Hm. unfold bind. rewrite Hm. reflexivity. }
  destruct (move_dispatches (mk "1000") dt d v HD Hd Hv) as (M1 & _).
  destruct (move_dispatches (mk "0001") dt d v HD Hd Hv) as (_ & M2 & _).
  destruct (move_dispatches (mk "0010") dt d v HD Hd Hv) as (_ & _ & _ & M3).
  destruct (move_dispatches (mk "0100") dt d v HD Hd Hv) as (_ & _ & M4 & _).
  split; [exact (Hgo _ _ _ M1)|].
  split; [exact (Hgo _ _ _ M2)|].
  split; [exact (Hgo _ _ _ M3)|exact (Hgo _ _ _ M4)].
Qed.

End StageFurther.

Lemma first_click_moves_witness :
  stage_moves
    (fst (click_MCL float_of_digits "+Y" (fst (resetMCLButtonsState window0))))
  = [(2%Z, 1%float, (- 50 * (1 / 1000))%float)].
Proof.
  destruct (first_click_moves float_of_digits window0 "50" 50%float 1%float)
    as (_ & _ & _ & H); [reflexivity|reflexivity|reflexivity|reflexivity|].
  exact H.
Defined.

Lemma move_returns_iff_witness :
  let s := with_D (PLineEdit "x") window0 in
  fst (move float_of_digits "0100" s) = s /\
  snd (move float_of_digits "0100" s) = Raise ValueError.
Proof.
  intros s.
  destruct (move_returns_iff float_of_digits "0100" s "x")
    as (_ & _ & Hf); [reflexivity|].
  apply Hf. intros H. discriminate H.
Defined.

(** ** The LED *)

Lemma digits_Z_bits bs : forall acc,
  (0 <= acc)%Z ->
  exists n, digits_Z (map bit_char bs) acc = Ok n /\
            (0 <= n)%Z /\
            py_bool n = (py_bool acc || existsb id bs).
Proof.
  induction bs as [|b bs IH]; intros acc Hacc; simpl.
  - exists acc. rewrite orb_false_r. auto.
  - rewrite py_int_bit_char.
    destruct (IH (10 * acc + Z.b2z b)%Z) as (n & Hn & Hpos & Hb).
    { destruct b; simpl; lia. }
    exists n. split; [exact Hn|]. split; [exact Hpos|].
    rewrite Hb. unfold py_bool.
    destruct b; simpl.
    + destruct (Z.eqb_spec (10 * acc + 1) 0); [lia|].
      simpl. rewrite orb_true_r. reflexivity.
    + destruct (Z.eqb_spec (10 * acc + 0) 0), (Z.eqb_spec acc 0);
        try lia; reflexivity.
Qed.

Lemma py_int_str_bits btns :
  btns <> [] ->
  exists n, py_int_str (binstring_of btns) = Ok n /\
            py_bool n = existsb snd btns.
Proof.
  intros Hne. unfold py_int_str.
  rewrite binstring_of_bits, list_ascii_of_string_of_list_ascii.
  rewrite <- (map_map snd bit_char).
  destruct btns as [|b btns]; [contradiction|].
  destruct (digits_Z_bits (map snd (b :: btns)) 0%Z) as (n & Hn & _ & Hb);
    [lia|].
  exists n. split; [exact Hn|]. rewrite Hb. simpl.
  f_equal. clear. induction btns as [|x l IH]; simpl; [reflexivity|].
  rewrite IH. reflexivity.
Qed.

Lemma getLEDButtonsState_eq d :
  self_LEDbuttons d <> [] ->
  getLEDButtonsState d =
  (mkLed (self_LEDbuttons d)
     (ser_written d ++
      [(if existsb snd (self_LEDbuttons d) then "CSN" else "CSF")
       +:+ newline])
     (led_printed d ++
      [if existsb snd (self_LEDbuttons d) then "LED on" else "LED off"]),
   Ok tt).
Proof.
  intros Hne. unfold getLEDButtonsState.
  destruct (py_int_str_bits _ Hne) as (n & -> & ->).
  destruct (existsb snd (self_LEDbuttons d)); reflexivity.
Qed.

Lemma uncheck_all keys : forall l : list (string * bool),
  fold_left (fun btns btnText => setChecked btnText false btns) keys l
  = map (fun b => if existsb (String.eqb (fst b)) keys
                  then (fst b, false) else b) l.
Proof.
  induction keys as [|k keys IH]; intros l; simpl.
  - symmetry. apply map_id.
  - rewrite IH. unfold setChecked. rewrite map_map. apply map_ext.
    intros [k' c]. cbn [fst].
    destruct (String.eqb k' k); cbn [fst orb]; [|reflexivity].
    destruct (existsb _ keys); reflexivity.
Qed.

(** X13. [getLEDButtonsState] sends exactly one command: "CSN\n" when at
    least one LED button is checked, "CSF\n" when none is, and leaves the
    buttons as they are. With no LED button at all, [int('')] raises
    [ValueError] and nothing is sent. *)
Theorem getLEDButtonsState_sends_one (d : led) :
  (self_LEDbuttons d <> [] ->
   snd (getLEDButtonsState d) = Ok tt /\
   self_LEDbuttons (fst (getLEDButtonsState d)) = self_LEDbuttons d /\
   ser_written (fst (getLEDButtonsState d)) =
     ser_written d ++
     [(if existsb snd (self_LEDbuttons d) then "CSN" else "CSF")
      +:+ newline]) /\
  (self_LEDbuttons d = [] ->
   getLEDButtonsState d = (d, Raise ValueError)).
Proof.
  split.
  - intros Hne. rewrite (getLEDButtonsState_eq _ Hne). repeat split.
  - intros Hnil. unfold getLEDButtonsState. rewrite Hnil. reflexivity.
Qed.

Lemma getLEDButtonsState_sends_one_witness :
  ser_written
    (fst (getLEDButtonsState (mkLed [("LED ON", true)] [] [])))
  = ["CSN" +:+ newline].
Proof.
  destruct (getLEDButtonsState_sends_one (mkLed [("LED ON", true)] [] []))
    as [H _].
  destruct H as (_ & _ & H); [discriminate|exact H].
Defined.

(** X14. With a single LED button, as [__init__] creates, a click
    switches the LED: it sends "CSN\n" when the button was unchecked and
    "CSF\n" when it was checked, and a second click sends the opposite
    command and brings the button back. *)
Theorem click_LED_switches (k : string) (b : bool) (w p : list string) :
  let d := mkLed [(k, b)] w p in
  snd (click_LED k d) = Ok tt /\
  self_LEDbuttons (fst (click_LED k d)) = [(k, negb b)] /\
  ser_written (fst (click_LED k d))
    = w ++ [(if b then "CSF" else "CSN") +:+ newline] /\
  self_LEDbuttons (fst (click_LED k (fst (click_LED k d)))) = [(k, b)] /\
  ser_written (fst (click_LED k (fst (click_LED k d))))
    = w ++ [(if b then "CSF" else "CSN") +:+ newline;
            (if b then "CSN" else "CSF") +:+ newline].
Proof.
  intros d. subst d.
  assert (H1 : forall b' w' p',
            click_LED k (mkLed [(k, b')] w' p') =
            (mkLed [(k, negb b')]
               (w' ++ [(if b' then "CSF" else "CSN") +:+ newline])
               (p' ++ [if b' then "LED off" else "LED on"]), Ok tt)).
  { intros b' w' p'. unfold click_LED.
    cbn [self_LEDbuttons ser_written led_printed toggle map fst snd].
    rewrite String.eqb_refl, getLEDButtonsState_eq by discriminate.
    cbn [self_LEDbuttons ser_written led_printed existsb snd orb].
    destruct b'; reflexivity. }
  rewrite !H1. cbn [fst snd self_LEDbuttons ser_written]. rewrite !H1.
  cbn [fst snd self_LEDbuttons ser_written].
  rewrite negb_involutive, <- app_assoc.
  destruct b; repeat split.
Qed.

Lemma existsb_unchecked (l : list (string * bool)) :
  existsb snd (map (fun b => (fst b, false)) l) = false.
Proof. induction l as [|x l IH]; simpl; auto. Qed.

(** X15. [resetLEDButtonsState] unchecks every LED button and sends
    nothing; the command sent for the state it leaves is "CSF\n". *)
Theorem resetLEDButtonsState_off (d : led) :
  self_LEDbuttons (resetLEDButtonsState d)
    = map (fun b => (fst b, false)) (self_LEDbuttons d) /\
  ser_written (resetLEDButtonsState d) = ser_written d /\
  (self_LEDbuttons d <> [] ->
   ser_written (fst (getLEDButtonsState (resetLEDButtonsState d)))
     = ser_written d ++ ["CSF" +:+ newline]).
Proof.
  assert (Hb : self_LEDbuttons (resetLEDButtonsState d)
               = map (fun b => (fst b, false)) (self_LEDbuttons d)).
  { unfold resetLEDButtonsState. cbn [self_LEDbuttons].
    rewrite uncheck_all. apply map_ext_in. intros b Hin.
    rewrite existsb_own_key; [reflexivity|apply list_elem_of_In, Hin]. }
  split; [exact Hb|]. split; [reflexivity|].
  intros Hne. rewrite getLEDButtonsState_eq.
  - rewrite Hb, existsb_unchecked. reflexivity.
  - rewrite Hb. destruct (self_LEDbuttons d); [contradiction|discriminate].
Qed.

Lemma resetLEDButtonsState_off_witness :
  ser_written
    (fst (getLEDButtonsState
            (resetLEDButtonsState (mkLed [("LED ON", true)] [] []))))
  = ["CSF" +:+ newline].
Proof.
  destruct (resetLEDButtonsState_off (mkLed [("LED ON", true)] [] []))
    as (_ & _ & H).
  apply H. discriminate.
Defined.

(** ** Runs and slots, further *)

Lemma emits_of_routine r :
  emits_of (Worker_run (executefn r))
  = map PyStr (routine_labels r) ++ [PyNone].
Proof. destruct r; reflexivity. Qed.

(** X16. Along any schedule, from any state of the system, the slots are
    run in the order in which the events were posted, none lost and none
    run twice, and the window is changed by them alone: it is exactly
    what running the handled slots in sequence makes of the window the
    schedule started from. Starting a routine and the steps of the
    workers never write to it. *)
Theorem window_changes_only_by_slots (sched : list label)
    (sys sys' : system) (tr : list event) :
  run sched sys = Some (sys', tr) ->
  map fst (handled tr) ++ gui_queue sys' = gui_queue sys ++ posted tr /\
  handled tr = dispatch (map fst (handled tr)) (win sys) /\
  win sys' = dispatch_final (map fst (handled tr)) (win sys) /\
  (handled tr = [] -> win sys' = win sys).
Proof.
  intros Hrun.
  destruct (run_handled_dispatch _ _ _ _ Hrun) as [Hd Hw].
  split; [exact (run_queue_fifo _ _ _ _ Hrun)|].
  split; [exact Hd|]. split; [exact Hw|].
  intros Hnil. rewrite Hw, Hnil. reflexivity.
Qed.

Lemma window_changes_only_by_slots_witness :
  exists (sys' : system) (tr : list event),
    run [User_start R1; Worker_step 0; Worker_step 0] (system0 1)
      = Some (sys', tr) /\
    win sys' = win (system0 1).
Proof.
  eexists _, _. split; [reflexivity|].
  eapply (window_changes_only_by_slots
            [User_start R1; Worker_step 0; Worker_step 0] (system0 1));
    reflexivity.
Defined.

(** X17. Whatever the state of the system in which a routine is started
    and whatever happens afterwards, the new run emits the labels of its
    routine in authoring order, ten rounds of them (20, 20, 30 and 40
    labels for routines 1 to 4), then [None]: what it has emitted at any
    point is a prefix of that sequence, and the whole of it once the run
    has ended. *)
Theorem every_run_emits_its_routine (r : routine) (sys : system)
    (sched : list label) (sys' : system) (tr : list event) :
  run sched (runfunction r sys) = Some (sys', tr) ->
  emitted_by (length (workers sys)) tr
    `prefix_of` map PyStr (routine_labels r) ++ [PyNone] /\
  (forall w' : worker,
     workers sys' !! length (workers sys) = Some w' ->
     w_ops w' = [] ->
     emitted_by (length (workers sys)) tr
     = map PyStr (routine_labels r) ++ [PyNone]) /\
  length (routine_labels r) = 10 * length (round_labels r).
Proof.
  intros Hrun.
  assert (Hw : workers (runfunction r sys) !! length (workers sys)
               = Some (mkWorker
                         (if Nat.ltb (activeThreadCount (workers sys))
                                     (maxThreadCount sys)
                          then Running else Queued)
                         (Worker_run (executefn r)))).
  { rewrite runfunction_workers. apply list_lookup_middle. reflexivity. }
  destruct (run_keeps_run _ _ _ _ _ _ Hrun Hw) as (w1 & Hw1 & Hem).
  cbn [w_ops] in Hem. rewrite emits_of_routine in Hem.
  split; [eexists; symmetry; exact Hem|]. split.
  - intros w' Hw' Hops. rewrite Hw1 in Hw'. injection Hw' as <-.
    rewrite Hops in Hem. cbn [emits_of omap] in Hem.
    rewrite app_nil_r in Hem. exact Hem.
  - destruct r; reflexivity.
Qed.

Lemma every_run_emits_its_routine_witness :
  exists (sys' : system) (tr : list event),
    run [Worker_step 0; Worker_step 0; Worker_step 0]
      (runfunction R4 (system0 1)) = Some (sys', tr) /\
    emitted_by 0 tr `prefix_of` map PyStr (routine_labels R4) ++ [PyNone].
Proof.
  eexists _, _. split; [reflexivity|].
  eapply (every_run_emits_its_routine R4 (system0 1)
            [Worker_step 0; Worker_step 0; Worker_step 0]).
  reflexivity.
Defined.
